(** * Finary-Revolut-Helper: [index.js] embedded in Rocq

    The program reads a brokerage statement (CSV), extracts typed
    transaction records ([parseCSV]), folds them into per-ticker
    positions and four totals ([calculateAveragePrices]) and prints a
    report ([main]).

    Numbers.  JavaScript numbers are IEEE 754 binary64 values.  They are
    modelled by Rocq's primitive [float], whose [+], [-], [/], [abs] and
    comparisons are the binary64 operations (round to nearest, ties to
    even) that the program executes; all NaNs are one value.  Facts that
    hold for every number are proved from the specification of these
    operations in [FloatAxioms].

    Objects.  The objects used as dictionaries ([tickerStats], [result],
    [tickerToIsin], a CSV [row]) are finite maps from strings, holding
    the object's own properties.  What such an object inherits from
    [Object.prototype] is modelled where the program meets it: an
    assignment to the name [__proto__] creates no property; a lookup in
    [tickerStats] of one of the twelve inherited names ([constructor],
    [toString], [__proto__], ...) that finds no own property finds the
    inherited object; and the properties that the aggregator thereby
    adds to [Object.prototype] itself are part of the state of its loop,
    and are met again when [main] enumerates [positions].  A [gmap] is
    enumerated in its own key order where JavaScript enumerates in
    property order (integer-like names, then the others as inserted); no
    statement below depends on the order of enumeration.

    Strings are sequences of bytes, the UTF-8 text of the file. *)

From Stdlib Require Import ZArith Floats Ascii Bool Lia.
From Stdlib Require String.
From Stdlib Require Import Permutation.
From stdpp Require Import gmap strings list fin_maps.

#[local] Set Warnings "-inexact-float".
#[local] Open Scope float_scope.

(* ================================================================== *)
(** * String methods used by the program                               *)
(* ================================================================== *)

(** [s.startsWith(p)], [s.endsWith(p)], [s.includes(p)] *)
Definition startsWith (s p : string) : bool := String.prefix p s.

Definition endsWith (s p : string) : bool :=
  String.prefix (String.rev p) (String.rev s).

Fixpoint includes (s p : string) : bool :=
  String.prefix p s ||
  match s with
  | EmptyString => false
  | String _ s' => includes s' p
  end.

Fixpoint drop_chars (n : nat) (s : string) : string :=
  match n, s with
  | S n', String _ s' => drop_chars n' s'
  | _, _ => s
  end.

(** [s.replace(pattern, replacement)] with a string pattern: only the
    first occurrence is replaced. *)
Fixpoint replace (s pattern replacement : string) : string :=
  if String.prefix pattern s then
    replacement +:+ drop_chars (String.length pattern) s
  else
    match s with
    | EmptyString => EmptyString
    | String c s' => String c (replace s' pattern replacement)
    end.

(** [s.split(separator)] for a separator of one character. *)
Fixpoint split (s : string) (separator : ascii) : list string :=
  match s with
  | EmptyString => [EmptyString]
  | String c s' =>
      if Ascii.eqb c separator then EmptyString :: split s' separator
      else match split s' separator with
           | field :: fields => String c field :: fields
           | [] => [String c EmptyString]
           end
  end.

Definition bytes (l : list nat) : string :=
  String.string_of_list_ascii (ascii_of_nat <$> l).

(** The euro sign U+20AC and the line feed. *)
Definition euroSign : string := bytes [226; 130; 172]%nat.
Definition lineFeed : ascii := ascii_of_nat 10.

(** White space and line terminators of ECMAScript, as UTF-8 byte
    sequences: TAB, LF, VT, FF, CR, SP, U+00A0, U+1680, U+2000..U+200A,
    U+2028, U+2029, U+202F, U+205F, U+3000, U+FEFF. *)
Definition whiteSpace : list string :=
  bytes <$> [ [9]; [10]; [11]; [12]; [13]; [32]; [194; 160]; [225; 154; 128];
              [226; 128; 128]; [226; 128; 129]; [226; 128; 130]; [226; 128; 131];
              [226; 128; 132]; [226; 128; 133]; [226; 128; 134]; [226; 128; 135];
              [226; 128; 136]; [226; 128; 137]; [226; 128; 138];
              [226; 128; 168]; [226; 128; 169]; [226; 128; 175];
              [226; 129; 159]; [227; 128; 128]; [239; 187; 191] ]%nat.

Fixpoint stripOne (spaces : list string) (s : string) : option string :=
  match spaces with
  | [] => None
  | w :: spaces' =>
      if String.prefix w s then Some (drop_chars (String.length w) s)
      else stripOne spaces' s
  end.

Fixpoint stripAll (fuel : nat) (spaces : list string) (s : string) : string :=
  match fuel with
  | O => s
  | S fuel' =>
      match stripOne spaces s with
      | Some s' => stripAll fuel' spaces s'
      | None => s
      end
  end.

Definition trimStart (s : string) : string :=
  stripAll (String.length s) whiteSpace s.

Definition trimEnd (s : string) : string :=
  String.rev (stripAll (String.length s) (String.rev <$> whiteSpace) (String.rev s)).

(** [s.trim()] *)
Definition trim (s : string) : string := trimEnd (trimStart s).

(* ================================================================== *)
(** * [parseFloat]                                                     *)
(* ================================================================== *)

(** The built-in reads, after leading white space, the longest prefix
    that is a decimal literal (sign, digits, fraction, exponent) or
    [Infinity], and returns the nearest binary64 value; with no such
    prefix it returns NaN.  It never throws. *)

Definition digitValue (c : ascii) : option Z :=
  let n := Z.of_nat (nat_of_ascii c) in
  if (48 <=? n)%Z && (n <=? 57)%Z then Some (n - 48)%Z else None.

(** Reads the longest run of decimal digits at the head of [s]: the
    number read after [value], the count of digits read after [count],
    and the rest of the string. *)
Fixpoint readDigits (s : string) (value count : Z) : Z * Z * string :=
  match s with
  | EmptyString => (value, count, s)
  | String c s' =>
      match digitValue c with
      | Some d => readDigits s' (10 * value + d)%Z (count + 1)%Z
      | None => (value, count, s)
      end
  end.

Definition readSign (s : string) : bool * string :=
  match s with
  | String "-" s' => (true, s')
  | String "+" s' => (false, s')
  | _ => (false, s)
  end.

(** The binary64 value nearest to [mantissa * 10 ^ exponent] (ties to
    even), with the sign [negative]: an exact integer is rounded once,
    an exact quotient is divided and rounded once. *)
Definition decimalToFloat (negative : bool) (mantissa exponent : Z) : float :=
  match mantissa with
  | Z.pos m =>
      if (0 <=? exponent)%Z then
        SF2Prim (binary_round prec emax negative
                   (m * Z.to_pos (10 ^ exponent))%positive 0)
      else
        SF2Prim (SFdiv prec emax
                   (S754_finite negative m 0)
                   (S754_finite false (Z.to_pos (10 ^ (- exponent))) 0))
  | _ => if negative then (-0) else 0
  end.

Definition readExponent (s : string) : Z :=
  match s with
  | String c s' =>
      if Ascii.eqb c "e" || Ascii.eqb c "E" then
        let '(negative, s'') := readSign s' in
        let '(value, count, _) := readDigits s'' 0 0 in
        if (count =? 0)%Z then 0%Z
        else if negative then (- value)%Z else value
      else 0%Z
  | EmptyString => 0%Z
  end.

Definition parseFloat (input : string) : float :=
  let '(negative, s) := readSign (trimStart input) in
  if startsWith s "Infinity" then
    if negative then neg_infinity else infinity
  else
    let '(intValue, intCount, afterInt) := readDigits s 0 0 in
    let '(value, fracCount, rest) :=
      match afterInt with
      | String "." s' => readDigits s' intValue 0
      | _ => (intValue, 0%Z, afterInt)
      end in
    if ((intCount + fracCount)%Z =? 0)%Z then nan
    else decimalToFloat negative value (readExponent rest - fracCount).

(* ================================================================== *)
(** * Transactions, statistics and results                            *)
(* ================================================================== *)

(** The [type] field of a transaction that carries a ticker and a
    quantity: ['BUY'] or ['SELL']. *)
Inductive TradeType := BUY | SELL.

(** The three shapes of object literal that [parseCSV] pushes.  A cash
    top-up is pushed as [Trade "EUR" BUY totalAmount 1 totalAmount]. *)
Inductive Transaction :=
| Trade (ticker : string) (type : TradeType)
        (quantity pricePerShare totalAmount : float)
| Dividend (ticker : option string) (totalAmount : float)
| Fee (totalAmount : float).

Record TickerStats := mkStats {
  boughtQuantity : float;
  soldQuantity : float;
  totalBoughtAmount : float
}.

Record Position := mkPosition {
  averagePrice : float;
  totalQuantity : float
}.

(** The state of the first loop of [calculateAveragePrices]: its local
    variables [tickerStats], and [totalInjected], [totalSold],
    [totalDividends], [totalFees] under the names [injected], [sold],
    [dividends], [fees]; and [objectPrototype], the names of the
    properties that the loop has added to [Object.prototype] (each holds
    NaN, and is enumerable). *)
Record Locals := mkLocals {
  tickerStats : gmap string TickerStats;
  injected : float;
  sold : float;
  dividends : float;
  fees : float;
  objectPrototype : gset string
}.

(** The object [calculateAveragePrices] returns. *)
Record Aggregate := mkAggregate {
  positions : gmap string Position;
  totalInjected : float;
  totalSold : float;
  totalDividends : float;
  totalFees : float
}.

(* ================================================================== *)
(** * The record extractor: [parseCSV]                                 *)
(* ================================================================== *)

(** What a call may end with: a value, or a thrown exception.  The only
    exception the extractor itself can raise is the [TypeError] of
    calling [.replace] on [undefined]; [ReadError] stands for a failure
    of [readFileSync]. *)
Inductive Exception := TypeError | ReadError.

Inductive Completion (A : Type) :=
| Normal (value : A)
| Thrown (e : Exception).
Arguments Normal {A} value.
Arguments Thrown {A} e.

(** [row[column] = value], where [value] is a string or [undefined].
    The name [__proto__] is the accessor inherited from
    [Object.prototype], whose setter ignores a value that is neither an
    object nor [null]: the assignment creates no property.  Under any
    other name the row gets a property of its own; a property that holds
    [undefined] reads like a missing one. *)
Definition assign (column : string) (value : option string)
  (row : gmap string string) : gmap string string :=
  if String.eqb column "__proto__" then row
  else match value with
       | Some cell => <[column := cell]> row
       | None => delete column row
       end.

(** [row[header[columnIndex]] = values[columnIndex]] for every column of
    the header; a line with fewer cells leaves the remaining columns
    [undefined]. *)
Fixpoint fillRow (row : gmap string string) (header values : list string)
  : gmap string string :=
  match header with
  | [] => row
  | column :: header' =>
      match values with
      | value :: values' => fillRow (assign column (Some value) row) header' values'
      | [] => fillRow (assign column None row) header' []
      end
  end.

(** [x || d] on a cell: [undefined] and the empty string are falsy. *)
Definition orElse (cell : option string) (d : string) : string :=
  match cell with
  | Some EmptyString | None => d
  | Some s => s
  end.

(** [x || null]: the cell when it is a non-empty string. *)
Definition nonEmpty (cell : option string) : option string :=
  match cell with
  | Some EmptyString | None => None
  | Some s => Some s
  end.

(** [.replace('€', '').replace('EUR ', '')] *)
Definition stripCurrency (s : string) : string :=
  replace (replace s euroSign "") "EUR " "".

(** [parseFloat(x)] on a cell: [undefined] is first converted to the
    string ["undefined"]. *)
Definition parseFloatCell (cell : option string) : float :=
  parseFloat (default "undefined" cell).

Definition rowType (row : gmap string string) : string :=
  orElse (row !! "Type") "".

Definition rowTotalAmount (row : gmap string string) : float :=
  parseFloat (stripCurrency (orElse (row !! "Total Amount") "0")).

(** The records pushed for one data line, in the order of the four [if]
    statements of the loop body. *)
Definition rowRecords (row : gmap string string) : Completion (list Transaction) :=
  let type := rowType row in
  let totalAmount := rowTotalAmount row in
  let trades :=
    match nonEmpty (row !! "Ticker") with
    | Some ticker =>
        if includes type "BUY" || includes type "SELL" then
          match row !! "Price per share" with
          | Some price =>
              Normal [Trade ticker
                            (if includes type "BUY" then BUY else SELL)
                            (parseFloatCell (row !! "Quantity"))
                            (parseFloat (stripCurrency price))
                            totalAmount]
          | None => Thrown TypeError
          end
        else Normal []
    | None => Normal []
    end in
  match trades with
  | Thrown e => Thrown e
  | Normal pushed =>
      Normal (pushed
              ++ (if String.eqb type "DIVIDEND"
                  then [Dividend (nonEmpty (row !! "Ticker")) totalAmount] else [])
              ++ (if String.eqb type "ROBO MANAGEMENT FEE"
                  then [Fee totalAmount] else [])
              ++ (if String.eqb type "CASH TOP-UP"
                  then [Trade "EUR" BUY totalAmount 1 totalAmount] else []))
  end.

Definition parseLine (header : list string) (line : string)
  : Completion (list Transaction) :=
  rowRecords (fillRow ∅ header (split line ",")).

(** The loop over [lines[1..]]: an exception leaves the loop and the
    function. *)
Fixpoint parseLines (header : list string) (lines : list string)
  : Completion (list Transaction) :=
  match lines with
  | [] => Normal []
  | line :: lines' =>
      match parseLine header line with
      | Thrown e => Thrown e
      | Normal pushed =>
          match parseLines header lines' with
          | Thrown e => Thrown e
          | Normal more => Normal (pushed ++ more)
          end
      end
  end.

(** [parseCSV] on the text [readFileSync] returned. *)
Definition parseCSV (content : string) : Completion (list Transaction) :=
  let lines := split (trim content) lineFeed in
  let header := split (default "" (head lines)) "," in
  parseLines header (tail lines).

(* ================================================================== *)
(** * The aggregator: [calculateAveragePrices]                         *)
(* ================================================================== *)

Definition newStats : TickerStats := mkStats 0 0 0.

Definition initialLocals : Locals := mkLocals ∅ 0 0 0 0 ∅.

(** The names of the properties of [Object.prototype], which every
    object literal inherits.  [__proto__] reads as [Object.prototype]
    itself, the eleven others as functions: all are truthy. *)
Definition inheritedNames : list string :=
  [ "constructor"; "__defineGetter__"; "__defineSetter__"; "hasOwnProperty";
    "__lookupGetter__"; "__lookupSetter__"; "isPrototypeOf";
    "propertyIsEnumerable"; "toString"; "valueOf"; "__proto__";
    "toLocaleString" ].

Definition inherited (name : string) : bool :=
  existsb (String.eqb name) inheritedNames.
Arguments inherited : simpl never.

(** [if (!tickerStats[ticker]) tickerStats[ticker] = {0, 0, 0}]: the
    lookup finds the statistics held under [ticker], or else what
    [tickerStats] inherits under that name, which is truthy, or else
    [undefined] (or the NaN of a property added to [Object.prototype]),
    and only then are statistics created. *)
Definition ensureStats (ticker : string) (ts : gmap string TickerStats)
  : gmap string TickerStats :=
  match ts !! ticker with
  | Some _ => ts
  | None => if inherited ticker then ts else <[ticker := newStats]> ts
  end.

(** [tickerStats[ticker].name += x] for each name of [names], when
    [tickerStats] holds no statistics under [ticker] after
    [ensureStats]: the object reached is inherited.  For the ticker
    [__proto__] it is [Object.prototype], which gets the properties
    [names] (holding NaN: [undefined + x]); for the other inherited
    names it is a function, which no other object inherits from. *)
Definition written {A} (ticker : string) (ts : gmap string A)
  (names : list string) (prototype : gset string) : gset string :=
  match ts !! ticker with
  | Some _ => prototype
  | None =>
      if String.eqb ticker "__proto__" then list_to_set names ∪ prototype
      else prototype
  end.

Definition addBought (quantity totalAmount : float) (s : TickerStats) : TickerStats :=
  mkStats (boughtQuantity s + quantity) (soldQuantity s)
          (totalBoughtAmount s + totalAmount).

Definition addSold (quantity : float) (s : TickerStats) : TickerStats :=
  mkStats (boughtQuantity s) (soldQuantity s + quantity) (totalBoughtAmount s).

(** One iteration of [for (const transaction of transactions)]. *)
Definition step (v : Locals) (transaction : Transaction) : Locals :=
  match transaction with
  | Trade ticker type quantity _ totalAmount =>
      if String.eqb ticker "EUR" && (if type is BUY then true else false) then
        mkLocals (tickerStats v) (injected v + totalAmount) (sold v)
                 (dividends v) (fees v) (objectPrototype v)
      else
        let ts := ensureStats ticker (tickerStats v) in
        match type with
        | BUY =>
            mkLocals (alter (addBought quantity totalAmount) ticker ts)
                     (injected v) (sold v) (dividends v) (fees v)
                     (written ticker ts ["boughtQuantity"; "totalBoughtAmount"]
                              (objectPrototype v))
        | SELL =>
            mkLocals (alter (addSold quantity) ticker ts)
                     (injected v) (sold v + totalAmount) (dividends v) (fees v)
                     (written ticker ts ["soldQuantity"] (objectPrototype v))
        end
  | Dividend _ totalAmount =>
      mkLocals (tickerStats v) (injected v) (sold v)
               (dividends v + totalAmount) (fees v) (objectPrototype v)
  | Fee totalAmount =>
      mkLocals (tickerStats v) (injected v) (sold v) (dividends v)
               (fees v + abs totalAmount) (objectPrototype v)
  end.

(** The body of [for (const ticker in tickerStats)]: a position is
    written only when [currentQuantity > 0].  The loop also visits the
    properties added to [Object.prototype]; under such a name
    [tickerStats] holds NaN, [currentQuantity] is NaN and nothing is
    written, so that the positions come from the statistics alone. *)
Definition positionOf (stats : TickerStats) : option Position :=
  let currentQuantity := boughtQuantity stats - soldQuantity stats in
  if 0 <? currentQuantity then
    Some (mkPosition (totalBoughtAmount stats / boughtQuantity stats)
                     currentQuantity)
  else None.

Definition finish (v : Locals) : Aggregate :=
  mkAggregate (omap positionOf (tickerStats v))
              (injected v) (sold v) (dividends v) (fees v).

Definition calculateAveragePrices (transactions : list Transaction) : Aggregate :=
  finish (fold_left step transactions initialLocals).

(** The properties that a call of [calculateAveragePrices] leaves on
    [Object.prototype]. *)
Definition prototypeAfter (transactions : list Transaction) : gset string :=
  objectPrototype (fold_left step transactions initialLocals).

(* ================================================================== *)
(** * [main]                                                           *)
(* ================================================================== *)

(** What the process reads: the entries of [process.env], and the
    [documents] folder ([None] when it does not exist) as the names
    [readdirSync] lists, each with the text [readFileSync] returns for
    it ([None] when reading it fails). *)
Record World := mkWorld {
  env : list (string * string);
  documents : option (list (string * option string))
}.

(** How a run ends.  Every constructor but [Report] is a message on the
    error stream followed by [process.exit(1)]. *)
Inductive Outcome :=
| NoTickerMapping
| DocumentsFolderNotFound
| NoCsvFile
| MissingIsinMappings (missingTickers : list string)
| ProcessingError (e : Exception)
| Report (lines : list (string * float * float))
         (summary : float * float * float * float * float).

Definition exitStatus (o : Outcome) : nat :=
  match o with
  | Report _ _ => 0
  | _ => 1
  end.

(** The body of the loop of [loadTickerToIsin].  The assignment
    [mapping[ticker] = value] creates no property when [ticker] is
    [__proto__]: the setter inherited under that name ignores a
    string. *)
Definition addEntry (mapping : gmap string string) (entry : string * string)
  : gmap string string :=
  let '(key, value) := entry in
  if startsWith key "TICKER_" then
    let ticker := replace key "TICKER_" "" in
    if String.eqb ticker "__proto__" then mapping
    else <[ticker := value]> mapping
  else mapping.

Definition loadTickerToIsin (entries : list (string * string)) : gmap string string :=
  fold_left addEntry entries ∅.

(** [!tickerToIsin[ticker]] for a ticker of [positions]: no entry, or an
    empty identifier.  A ticker of [positions] is never one of the
    names inherited from [Object.prototype], under which the lookup
    would find a function; and a property added to [Object.prototype]
    holds NaN, which is falsy like [undefined]. *)
Definition lacksIsin (tickerToIsin : gmap string string) (ticker : string) : bool :=
  match nonEmpty (tickerToIsin !! ticker) with
  | Some _ => false
  | None => true
  end.

(** [Object.keys(positions).filter(ticker => !tickerToIsin[ticker])] *)
Definition missingTickers (tickerToIsin : gmap string string)
  (positions : gmap string Position) : list string :=
  filter (fun ticker => lacksIsin tickerToIsin ticker = true)
         (map_to_list positions).*1.

(** The lines of the report, as the values printed: identifier, total
    quantity, average price; then total invested, total sold, net
    contributions, total dividends, total fees.  The rendering of the
    numbers by [toFixed] is left to the printer. *)
Definition reportLines (tickerToIsin : gmap string string)
  (positions : gmap string Position) : list (string * float * float) :=
  (fun '(ticker, p) =>
     (default "" (tickerToIsin !! ticker), totalQuantity p, averagePrice p))
  <$> map_to_list positions.

(** [for (const ticker in positions)] visits the properties of
    [positions], then the enumerable properties it inherits that it does
    not hold itself: those in [prototype], the names added to
    [Object.prototype].  Under such a name [positions[ticker]] is NaN,
    [positions[ticker].averagePrice] is [undefined] and the call of
    [toFixed] throws a [TypeError].  The loop runs to its end only when
    [positions] holds every name of [prototype]. *)
Definition printable (prototype : gset string) (positions : gmap string Position)
  : bool :=
  forallb (fun name => bool_decide (is_Some (positions !! name)))
          (elements prototype).

(** The end of [main], from the computation of [missingTickers] on:
    the messages on the missing identifiers and [process.exit(1)], or
    the report, or the [TypeError] thrown while printing it, which the
    [catch] turns into a processing error (the lines printed before it
    are not part of the outcome). *)
Definition report (tickerToIsin : gmap string string) (prototype : gset string)
  (a : Aggregate) : Outcome :=
  match missingTickers tickerToIsin (positions a) with
  | [] =>
      if printable prototype (positions a) then
        Report (reportLines tickerToIsin (positions a))
               (totalInjected a, totalSold a, totalInjected a - totalSold a,
                totalDividends a, totalFees a)
      else ProcessingError TypeError
  | missing => MissingIsinMappings missing
  end.

Definition main (w : World) : Outcome :=
  let tickerToIsin := loadTickerToIsin (env w) in
  if decide (size tickerToIsin = 0%nat) then NoTickerMapping
  else
    match documents w with
    | None => DocumentsFolderNotFound
    | Some files =>
        match find (fun file => endsWith file.1 ".csv") files with
        | None => NoCsvFile
        | Some (_, None) => ProcessingError ReadError
        | Some (_, Some content) =>
            match parseCSV content with
            | Thrown e => ProcessingError e
            | Normal transactions =>
                report tickerToIsin (prototypeAfter transactions)
                       (calculateAveragePrices transactions)
            end
        end
    end.

(* ================================================================== *)
(** * What each accumulator is fed                                     *)
(* ================================================================== *)

(** The left-to-right sum the loop computes with [+=], starting from
    [start]; [sum] starts from the literal [0]. *)
Definition sumFrom (start : float) (terms : list float) : float :=
  fold_left add terms start.

Definition sum (terms : list float) : float := sumFrom 0 terms.

(** The amount a record adds to [totalInjected], [totalSold],
    [totalDividends]; the amount whose absolute value it adds to
    [totalFees]. *)
Definition injectedAmount (transaction : Transaction) : option float :=
  match transaction with
  | Trade ticker BUY _ _ totalAmount =>
      if String.eqb ticker "EUR" then Some totalAmount else None
  | _ => None
  end.

Definition soldAmount (transaction : Transaction) : option float :=
  match transaction with
  | Trade _ SELL _ _ totalAmount => Some totalAmount
  | _ => None
  end.

Definition dividendAmount (transaction : Transaction) : option float :=
  match transaction with
  | Dividend _ totalAmount => Some totalAmount
  | _ => None
  end.

Definition feeAmount (transaction : Transaction) : option float :=
  match transaction with
  | Fee totalAmount => Some totalAmount
  | _ => None
  end.

(** The quantity and amount a Buy record adds to the statistics of
    [ticker].  A BUY of the ticker EUR is a cash top-up for the
    aggregator, not a Buy of any ticker. *)
Definition boughtBy (ticker : string) (transaction : Transaction)
  : option (float * float) :=
  match transaction with
  | Trade t BUY quantity _ totalAmount =>
      if String.eqb t "EUR" then None
      else if String.eqb t ticker then Some (quantity, totalAmount) else None
  | _ => None
  end.

(** The quantity a Sell record adds to the statistics of [ticker]. *)
Definition soldBy (ticker : string) (transaction : Transaction) : option float :=
  match transaction with
  | Trade t SELL quantity _ _ =>
      if String.eqb t ticker then Some quantity else None
  | _ => None
  end.

(** The Buy records of [ticker] as written in the sequence: the quantity
    and amount of every record of type BUY that carries the ticker, be
    the ticker EUR or a name inherited from [Object.prototype]. *)
Definition buyOf (ticker : string) (transaction : Transaction)
  : option (float * float) :=
  match transaction with
  | Trade t BUY quantity _ totalAmount =>
      if String.eqb t ticker then Some (quantity, totalAmount) else None
  | _ => None
  end.

Definition buysOf (ticker : string) (l : list Transaction) : list (float * float) :=
  omap (buyOf ticker) l.

Definition boughtQuantities (ticker : string) (l : list Transaction) : list float :=
  (omap (boughtBy ticker) l).*1.

Definition boughtAmounts (ticker : string) (l : list Transaction) : list float :=
  (omap (boughtBy ticker) l).*2.

Definition soldQuantities (ticker : string) (l : list Transaction) : list float :=
  omap (soldBy ticker) l.

(** The statistics of a ticker after the loop, from what it held before
    and the Buy and Sell records met since. *)
Definition statsFrom (before : option TickerStats)
  (bought : list (float * float)) (soldQ : list float) : option TickerStats :=
  match bought, soldQ with
  | [], [] => before
  | _, _ =>
      let s := default newStats before in
      Some (mkStats (sumFrom (boughtQuantity s) bought.*1)
                    (sumFrom (soldQuantity s) soldQ)
                    (sumFrom (totalBoughtAmount s) bought.*2))
  end.

(** The statistics of [t] after the loop: none under an inherited name
    that held none, and otherwise those that the Buy and Sell records of
    [t] build. *)
Definition statsAfter (before : option TickerStats) (t : string)
  (l : list Transaction) : option TickerStats :=
  match before with
  | None =>
      if inherited t then None
      else statsFrom None (omap (boughtBy t) l) (omap (soldBy t) l)
  | Some _ => statsFrom before (omap (boughtBy t) l) (omap (soldBy t) l)
  end.

(** The properties that one iteration adds to [Object.prototype]: those
    a trade of the ticker [__proto__] updates with [+=]. *)
Definition prototypeWrites (transaction : Transaction) : gset string :=
  match transaction with
  | Trade ticker type _ _ _ =>
      if String.eqb ticker "__proto__" then
        match type with
        | BUY => {[ "boughtQuantity"; "totalBoughtAmount" ]}
        | SELL => {[ "soldQuantity" ]}
        end
      else ∅
  | _ => ∅
  end.

(** Two record sequences feed every accumulator the same terms in the
    same order. *)
Definition sameFeeds (l l' : list Transaction) : Prop :=
  omap injectedAmount l = omap injectedAmount l'
  /\ omap soldAmount l = omap soldAmount l'
  /\ omap dividendAmount l = omap dividendAmount l'
  /\ omap feeAmount l = omap feeAmount l'
  /\ forall ticker,
       omap (boughtBy ticker) l = omap (boughtBy ticker) l'
       /\ omap (soldBy ticker) l = omap (soldBy ticker) l'.

(* ================================================================== *)
(** * Signs of binary64 values                                         *)
(* ================================================================== *)

(** The sign a rounded number carries, NaN apart. *)
Definition sign_is (s : bool) (x : spec_float) : Prop :=
  match x with
  | S754_nan => True
  | S754_zero s' | S754_infinity s' | S754_finite s' _ _ => s' = s
  end.

(** [not_positive x]: [0 < x] is false; [not_negative x]: [x < 0] is
    false (both hold of NaN); [at_least_zero x]: [0 <= x] is true. *)
Definition not_positive (x : spec_float) : bool :=
  negb (SFltb (S754_zero false) x).

Definition not_negative (x : spec_float) : bool :=
  negb (SFltb x (S754_zero false)).

Definition at_least_zero (x : spec_float) : bool :=
  SFleb (S754_zero false) x.

(* ================================================================== *)
(** * Rows and texts, classified                                       *)
(* ================================================================== *)

(** The row enters the first [if] of the loop body: it has a ticker and
    its type contains BUY or SELL. *)
Definition isTradeRow (row : gmap string string) : bool :=
  match nonEmpty (row !! "Ticker") with
  | Some _ => includes (rowType row) "BUY" || includes (rowType row) "SELL"
  | None => false
  end.

Definition startsWithDigit (s : string) : bool :=
  match s with
  | String c _ => match digitValue c with Some _ => true | None => false end
  | EmptyString => false
  end.

(** A text that fails numeric parsing: after leading white space and an
    optional sign there is neither [Infinity], nor a digit, nor a point
    followed by a digit. *)
Definition noNumericPrefix (input : string) : bool :=
  let s := (readSign (trimStart input)).2 in
  negb (startsWith s "Infinity")
  && negb (startsWithDigit s)
  && match s with
     | String "." s' => negb (startsWithDigit s')
     | _ => true
     end.

(* ================================================================== *)
(** * Inputs used as examples                                          *)
(* ================================================================== *)

(** A cash top-up as [parseCSV] pushes it. *)
Definition cashTopUp (totalAmount : float) : Transaction :=
  Trade "EUR" BUY totalAmount 1 totalAmount.

(** Three buys of one ticker and three top-ups, and the same records
    with each group in the opposite order. *)
Definition ascending : list Transaction :=
  [ Trade "A" BUY 0.1 10 1; Trade "A" BUY 0.2 5 1; Trade "A" BUY 0.3 3 1;
    cashTopUp 0.1; cashTopUp 0.2; cashTopUp 0.3 ].

Definition descending : list Transaction :=
  [ Trade "A" BUY 0.3 3 1; Trade "A" BUY 0.2 5 1; Trade "A" BUY 0.1 10 1;
    cashTopUp 0.3; cashTopUp 0.2; cashTopUp 0.1 ].

(** Records of two tickers and of the totals, interleaved in two ways
    that keep the order of the records feeding any one accumulator. *)
Definition interleaved1 : list Transaction :=
  [ Trade "A" BUY 0.1 10 1; Trade "B" BUY 3 2 6; Trade "A" BUY 0.2 5 1;
    Trade "A" SELL 0.1 12 1.2; cashTopUp 0.1; Fee (-0.5);
    Trade "B" BUY 0.3 2 0.6; cashTopUp 0.2; Dividend (Some "B") 0.7 ].

Definition interleaved2 : list Transaction :=
  [ Trade "B" BUY 3 2 6; cashTopUp 0.1; Trade "A" BUY 0.1 10 1;
    Dividend (Some "B") 0.7; Trade "B" BUY 0.3 2 0.6; Trade "A" BUY 0.2 5 1;
    cashTopUp 0.2; Fee (-0.5); Trade "A" SELL 0.1 12 1.2 ].

(** One ticker kept in part, another sold out. *)
Definition keptAndSoldOut : list Transaction :=
  [ Trade "A" BUY 10 5 50; Trade "B" BUY 3 2 6; Trade "A" SELL 4 6 24;
    Trade "B" SELL 3 4 12 ].

(** Statements as exported: a header line and data lines. *)
Definition headerLine : string :=
  "Ticker,Type,Quantity,Price per share,Total Amount".

Definition lines (l : list string) : string :=
  foldr (fun line text => line +:+ String lineFeed text) "" l.

(** A sale of a ticker that was never bought. *)
Definition sellOnlyWorld : World :=
  mkWorld [("HOME", "/home/user"); ("TICKER_AAA", "US0000000001")]
          (Some [("statement.pdf", Some "%PDF-1.7");
                 ("transactions.csv",
                  Some (lines [headerLine; "AAA,SELL,4,€6,€24"]))]).

(** A buy whose total amount is not a number, and a top-up whose amount
    is not a number either. *)
Definition unparsableCsv : string :=
  lines [headerLine; "AAA,BUY - MARKET,10,€5,n/a"; ",CASH TOP-UP,,,pending"].

Definition unparsableWorld : World :=
  mkWorld [("TICKER_AAA", "US0000000001")]
          (Some [("transactions.csv", Some unparsableCsv)]).

Definition unparsableRow : gmap string string :=
  fillRow ∅ (split headerLine ",") (split "AAA,BUY - MARKET,abc,€5,n/a" ",").

Definition pendingTopUpRow : gmap string string :=
  fillRow ∅ (split headerLine ",") (split ",CASH TOP-UP,,,pending" ",").

Definition topUpRow : gmap string string :=
  fillRow ∅ (split headerLine ",") (split ",CASH TOP-UP,,,€100" ",").

(** A genuine BUY row whose ticker is EUR. *)
Definition eurBuyRow : gmap string string :=
  fillRow ∅ (split headerLine ",") (split "EUR,BUY - MARKET,10,€5,€50" ",").

(** Three open positions, one identifier configured. *)
Definition gapWorld : World :=
  mkWorld [("TICKER_TICK_A", "IE00BCRY6003"); ("TICKER_DDD", "")]
          (Some [("transactions.csv",
                  Some (lines [headerLine; "TICK_A,BUY,10,€5,€50";
                               "BBB,BUY,1,€2,€2"; "CCC,BUY,3,€1,€3";
                               "DDD,BUY,3,€1,€3"]))]).

Definition gapTransactions : list Transaction :=
  [ Trade "TICK_A" BUY 10 5 50; Trade "BBB" BUY 1 2 2; Trade "CCC" BUY 3 1 3;
    Trade "DDD" BUY 3 1 3 ].

(** Amounts below zero in a top-up, a sale and a dividend. *)
Definition negativeAmounts : list Transaction :=
  [ cashTopUp (-100); Trade "A" SELL 1 5 (-5); Dividend (Some "A") (-1) ].

(** A buy of the ticker EUR and a sale of it with a negative quantity. *)
Definition eurTrades : list Transaction :=
  [ Trade "EUR" BUY 10 5 50; Trade "EUR" SELL (-1) 5 (-5) ].

(* ================================================================== *)
(** * Views used to state further properties                           *)
(* ================================================================== *)

(** The record is a trade of [ticker]. *)
Definition tradeOf (ticker : string) (transaction : Transaction) : bool :=
  match transaction with
  | Trade t _ _ _ _ => String.eqb t ticker
  | _ => false
  end.

(** The record with the fields the aggregator never reads blanked: the
    price per share of a trade, the ticker of a dividend. *)
Definition readFields (transaction : Transaction) : Transaction :=
  match transaction with
  | Trade ticker type quantity _ totalAmount =>
      Trade ticker type quantity 0 totalAmount
  | Dividend _ totalAmount => Dividend None totalAmount
  | Fee totalAmount => Fee totalAmount
  end.

(** The tickers a pushed record may carry: a trade has a non-empty
    ticker, a dividend has a non-empty ticker or none. *)
Definition wellTickered (transaction : Transaction) : bool :=
  match transaction with
  | Trade ticker _ _ _ _ => negb (String.eqb ticker "")
  | Dividend (Some ticker) _ => negb (String.eqb ticker "")
  | _ => true
  end.

(** No character of [s] is [c]. *)
Fixpoint lacksChar (c : ascii) (s : string) : bool :=
  match s with
  | EmptyString => true
  | String c' s' => negb (Ascii.eqb c' c) && lacksChar c s'
  end.

(* ================================================================== *)
(** * The previous version of the program                              *)
(* ================================================================== *)

(** The first version of [index.js] kept the BUY rows only and reported
    every ticker met. *)
Module Legacy.

(** The object literal its [parseCSV] pushes. *)
Record Transaction := mkTransaction {
  ticker : string;
  quantity : float;
  pricePerShare : float;
  totalAmount : float
}.

(** An entry of its [tickerStats]; the local [totalAmount] of the
    statistics is named [amount] here. *)
Record Stats := mkStats {
  totalQuantity : float;
  amount : float
}.

Definition rowRecords (row : gmap string string) : Completion (list Transaction) :=
  match nonEmpty (row !! "Ticker"), nonEmpty (row !! "Type") with
  | Some t, Some type =>
      if includes type "BUY" then
        match row !! "Price per share", row !! "Total Amount" with
        | Some price, Some total =>
            Normal [mkTransaction t (parseFloatCell (row !! "Quantity"))
                                  (parseFloat (stripCurrency price))
                                  (parseFloat (stripCurrency total))]
        | _, _ => Thrown TypeError
        end
      else Normal []
  | _, _ => Normal []
  end.

(** The state of its loop: [tickerStats], and the names of the
    properties that the loop has added to [Object.prototype]. *)
Record Locals := mkLocals {
  tickerStats : gmap string Stats;
  objectPrototype : gset string
}.

(** One iteration of the loop.  As in the present version, statistics
    are created only when the lookup of the ticker finds nothing, not
    even an inherited object, and the two [+=] reach
    [Object.prototype] when the ticker is [__proto__]. *)
Definition step (v : Locals) (transaction : Transaction) : Locals :=
  let ts :=
    match tickerStats v !! ticker transaction with
    | Some _ => tickerStats v
    | None =>
        if inherited (ticker transaction) then tickerStats v
        else <[ticker transaction := mkStats 0 0]> (tickerStats v)
    end in
  mkLocals
    (alter (fun s => mkStats (totalQuantity s + quantity transaction)
                             (amount s + totalAmount transaction))
           (ticker transaction) ts)
    (written (ticker transaction) ts ["totalQuantity"; "totalAmount"]
             (objectPrototype v)).

(** The second loop writes a result for every name that
    [for (const ticker in tickerStats)] visits: the tickers of the
    statistics, and the properties added to [Object.prototype] that the
    statistics do not hold themselves.  Under such a name [tickerStats]
    holds NaN, whose [totalQuantity] and [totalAmount] are the NaN
    added to [Object.prototype] (the two are added together): the
    result is NaN for both fields. *)
Definition calculateAveragePrices (transactions : list Transaction)
  : gmap string Position :=
  let v := fold_left step transactions (mkLocals ∅ ∅) in
  ((fun s => mkPosition (amount s / totalQuantity s) (totalQuantity s))
   <$> tickerStats v)
  ∪ gset_to_gmap (mkPosition nan nan) (objectPrototype v).

End Legacy.

(** The record of the present version for the same purchase. *)
Definition legacyToTrade (transaction : Legacy.Transaction) : Transaction :=
  Trade (Legacy.ticker transaction) BUY (Legacy.quantity transaction)
        (Legacy.pricePerShare transaction) (Legacy.totalAmount transaction).


(** The quantity and amount a record of the previous version adds to
    the statistics of [ticker]. *)
Definition legacyBoughtBy (ticker : string) (transaction : Legacy.Transaction)
  : option (float * float) :=
  if String.eqb (Legacy.ticker transaction) ticker
  then Some (Legacy.quantity transaction, Legacy.totalAmount transaction)
  else None.

(** The statistics of a ticker after the loop of the previous version. *)
Definition legacyStatsFrom (before : option Legacy.Stats)
  (bought : list (float * float)) : option Legacy.Stats :=
  match bought with
  | [] => before
  | _ =>
      let s := default (Legacy.mkStats 0 0) before in
      Some (Legacy.mkStats (sumFrom (Legacy.totalQuantity s) bought.*1)
                           (sumFrom (Legacy.amount s) bought.*2))
  end.

(** The statistics of [t] after the loop of the previous version: none
    under an inherited name that held none. *)
Definition legacyStatsAfter (before : option Legacy.Stats) (t : string)
  (l : list Legacy.Transaction) : option Legacy.Stats :=
  match before with
  | None =>
      if inherited t then None
      else legacyStatsFrom None (omap (legacyBoughtBy t) l)
  | Some _ => legacyStatsFrom before (omap (legacyBoughtBy t) l)
  end.

(** The filter the present version applies to a position. *)
Definition keepOpen (p : Position) : option Position :=
  if 0 <? totalQuantity p then Some p else None.

(** The total amount a record carries. *)
Definition amountOf (transaction : Transaction) : float :=
  match transaction with
  | Trade _ _ _ _ totalAmount | Dividend _ totalAmount | Fee totalAmount =>
      totalAmount
  end.

(** The data lines of a statement and its header, as [parseCSV] cuts
    them. *)
Definition dataLines (content : string) : list string :=
  tail (split (trim content) lineFeed).

Definition headerOf (content : string) : list string :=
  split (default "" (head (split (trim content) lineFeed))) ",".

(** The row object built for one data line. *)
Definition rowOf (header : list string) (line : string) : gmap string string :=
  fillRow ∅ header (split line ",").

(** The variable of the environment that configures [ticker]. *)
Definition tickerVariable (ticker : string) : string := "TICKER_" +:+ ticker.

Definition isCsv (file : string * option string) : bool := endsWith file.1 ".csv".

(** A run that prints a report: two identifiers, a folder with a file
    that is no statement, and two statements. *)
Definition reportEnv : list (string * string) :=
  [("HOME", "/home/user"); ("TICKER_AAA", "US0000000001");
   ("TICKER_BBB", "IE00BCRY6003")].

Definition reportCsv : string :=
  lines [headerLine; "AAA,BUY - MARKET,10,€5,€50"; "BBB,BUY - MARKET,2,€4,€8";
         "AAA,SELL - MARKET,4,€6,€24"; ",CASH TOP-UP,,,€100"].

Definition reportWorld : World :=
  mkWorld reportEnv
          (Some [("statement.pdf", Some "%PDF-1.7");
                 ("transactions.csv", Some reportCsv);
                 ("older.csv", None)]).

(** The names a trade of the ticker [__proto__] adds to
    [Object.prototype], by its type. *)
Definition writtenBy (type : TradeType) : list string :=
  match type with
  | BUY => ["boughtQuantity"; "totalBoughtAmount"]
  | SELL => ["soldQuantity"]
  end.

(** A statement that sells a ticker named [__proto__]. *)
Definition protoCsv : string :=
  lines [headerLine; "AAA,BUY,10,€5,€50"; "__proto__,SELL,4,€6,€24"].

Definition protoWorld : World :=
  mkWorld [("TICKER_AAA", "US0000000001")]
          (Some [("transactions.csv", Some protoCsv)]).
(* ================================================================== *)
(** * Lemmas on binary64 arithmetic                                    *)
(* ================================================================== *)

#[local] Open Scope Z_scope.

(** Case analysis on the classes and signs of two numbers; the cases in
    which a hypothesis is contradictory or the goal computes are closed
    at once. *)
Ltac by_class_and_sign x y :=
  destruct x as [?sx|?sx| |?sx ?mx ?ex], y as [?sy|?sy| |?sy ?my ?ey];
  repeat match goal with s : bool |- _ => destruct s end;
  try discriminate; try reflexivity.

Lemma digits2_pos_bounds (m : positive) :
  2 ^ (Z.pos (digits2_pos m) - 1) <= Z.pos m < 2 ^ Z.pos (digits2_pos m).
Proof.
  induction m as [m IH | m IH |]; cbn [digits2_pos].
  - rewrite Pos2Z.inj_succ, Z.pow_succ_r by lia.
    replace (Z.succ (Z.pos (digits2_pos m)) - 1) with (Z.succ (Z.pos (digits2_pos m) - 1)) by lia.
    rewrite Z.pow_succ_r by lia. lia.
  - rewrite Pos2Z.inj_succ, Z.pow_succ_r by lia.
    replace (Z.succ (Z.pos (digits2_pos m)) - 1) with (Z.succ (Z.pos (digits2_pos m) - 1)) by lia.
    rewrite Z.pow_succ_r by lia. lia.
  - cbn. lia.
Qed.

Lemma iter_xO_value (m d : positive) :
  Z.pos (Pos.iter xO m d) = Z.pos m * 2 ^ Z.pos d.
Proof.
  induction d as [|d IH] using Pos.peano_ind.
  - cbn. lia.
  - rewrite Pos.iter_succ, Pos2Z.inj_succ, Z.pow_succ_r by lia.
    rewrite Pos2Z.inj_xO, IH. lia.
Qed.

Section SpecFloatOrder.
Variables prec emax : Z.

Lemma shl_align_value mx ex ez :
  ez <= ex -> Z.pos (fst (shl_align mx ex ez)) = Z.pos mx * 2 ^ (ex - ez).
Proof.
  intros Hle. unfold shl_align.
  destruct (ez - ex) as [|d|d] eqn:E; cbn [fst].
  - replace (ex - ez) with 0 by lia. cbn. lia.
  - lia.
  - rewrite iter_xO_value. f_equal. f_equal. lia.
Qed.

Lemma binary_round_aux_sign sx mx ex lx :
  sign_is sx (binary_round_aux prec emax sx mx ex lx).
Proof.
  unfold binary_round_aux.
  destruct (shr_fexp prec emax mx ex lx) as [mrs' e'].
  destruct (shr_fexp prec emax _ e' loc_Exact) as [mrs'' e''].
  destruct (shr_m mrs''); cbn; auto.
  destruct (e'' <=? emax - prec); cbn; auto.
Qed.

Lemma binary_round_sign sx mx ex : sign_is sx (binary_round prec emax sx mx ex).
Proof.
  unfold binary_round. destruct (shl_align _ _ _). apply binary_round_aux_sign.
Qed.

Lemma canonical_digits_le m e :
  canonical_mantissa prec emax m e = true ->
  Z.pos (digits2_pos m) <= prec /\ SpecFloat.emin prec emax <= e.
Proof.
  unfold canonical_mantissa, fexp. intros H%Z.eqb_eq. lia.
Qed.

Lemma canonical_digits_eq m e :
  canonical_mantissa prec emax m e = true -> SpecFloat.emin prec emax < e ->
  Z.pos (digits2_pos m) = prec.
Proof.
  unfold canonical_mantissa, fexp. intros H%Z.eqb_eq. lia.
Qed.

(** Two canonical mantissas with different exponents: the one with the
    larger exponent is the larger number. *)
Lemma canonical_exponent_lt m1 e1 m2 e2 :
  canonical_mantissa prec emax m1 e1 = true ->
  canonical_mantissa prec emax m2 e2 = true ->
  e1 < e2 ->
  Z.pos m1 < Z.pos m2 * 2 ^ (e2 - e1).
Proof.
  intros C1 C2 Hlt.
  destruct (canonical_digits_le _ _ C1) as [D1 E1].
  assert (D2 : Z.pos (digits2_pos m2) = prec) by (eapply canonical_digits_eq; eauto; lia).
  pose proof (digits2_pos_bounds m1) as [_ B1].
  pose proof (digits2_pos_bounds m2) as [B2 _].
  rewrite D2 in B2.
  assert (P1 : 2 ^ Z.pos (digits2_pos m1) <= 2 ^ prec) by (apply Z.pow_le_mono_r; lia).
  assert (P2 : 2 ^ prec = 2 * 2 ^ (prec - 1)).
  { rewrite <- Z.pow_succ_r by lia. f_equal. lia. }
  assert (P3 : 2 ^ 1 <= 2 ^ (e2 - e1)) by (apply Z.pow_le_mono_r; lia).
  change (2 ^ 1) with 2 in P3.
  nia.
Qed.

Lemma binary_normalize_not_positive m e :
  m <= 0 -> not_positive (binary_normalize prec emax m e false) = true.
Proof.
  intros Hm. unfold binary_normalize. destruct m as [|p|p]; [reflexivity | lia |].
  pose proof (binary_round_sign true p e) as S.
  destruct (binary_round prec emax true p e); cbn in S; subst; reflexivity.
Qed.

(** [x <= y] implies that [x - y], rounded, is not above zero. *)
Lemma SFsub_not_positive x y :
  SpecFloat.valid_binary prec emax x = true -> SpecFloat.valid_binary prec emax y = true ->
  SFleb x y = true ->
  not_positive (SFsub prec emax x y) = true.
Proof.
  intros Vx Vy Hle.
  by_class_and_sign x y.
  all: cbn [valid_binary] in Vx, Vy; unfold bounded in Vx, Vy;
    apply andb_prop in Vx as [Cx _]; apply andb_prop in Vy as [Cy _].
  all: unfold SFleb, SFcompare in Hle; unfold SFsub;
    apply binary_normalize_not_positive; cbn [cond_Zopp].
  - (* both negative *)
    destruct (Z.compare_spec ex ey) as [E|E|E]; try discriminate Hle.
    + subst ey. rewrite Z.min_id, !shl_align_value, Z.sub_diag, Z.pow_0_r by lia.
      change (Pos.compare_cont Eq mx my) with (Pos.compare mx my) in Hle.
      destruct (Pos.compare_spec mx my); cbn in Hle; try discriminate Hle; lia.
    + rewrite Z.min_r, !shl_align_value by lia.
      rewrite Z.sub_diag, Z.pow_0_r.
      pose proof (canonical_exponent_lt _ _ _ _ Cy Cx E). lia.
  - (* x negative, y positive *) lia.
  - (* both positive *)
    destruct (Z.compare_spec ex ey) as [E|E|E]; try discriminate Hle.
    + subst ey. rewrite Z.min_id, !shl_align_value, Z.sub_diag, Z.pow_0_r by lia.
      change (Pos.compare_cont Eq mx my) with (Pos.compare mx my) in Hle.
      destruct (Pos.compare_spec mx my); cbn in Hle; try discriminate Hle; lia.
    + rewrite Z.min_l, !shl_align_value by lia.
      rewrite Z.sub_diag, Z.pow_0_r.
      pose proof (canonical_exponent_lt _ _ _ _ Cx Cy E). lia.
Qed.

(** Shifting right and rounding keep a mantissa that is not negative. *)
Lemma shr_1_nonneg mrs : 0 <= shr_m mrs -> 0 <= shr_m (shr_1 mrs).
Proof.
  destruct mrs as [m r s]. cbn [shr_m]. intros Hm.
  destruct m as [|[p|p|]|p]; cbn; lia.
Qed.

Lemma iter_pos_shr_1_nonneg n mrs :
  0 <= shr_m mrs -> 0 <= shr_m (SpecFloat.iter_pos shr_1 n mrs).
Proof.
  revert mrs. induction n as [n IH|n IH|]; intros mrs Hm; cbn [SpecFloat.iter_pos].
  - apply IH, IH, shr_1_nonneg, Hm.
  - apply IH, IH, Hm.
  - apply shr_1_nonneg, Hm.
Qed.

Lemma shr_fexp_nonneg m e l :
  0 <= m -> 0 <= shr_m (fst (shr_fexp prec emax m e l)).
Proof.
  intros Hm. unfold shr_fexp, shr.
  assert (H0 : 0 <= shr_m (shr_record_of_loc m l)) by (destruct l as [|[]]; exact Hm).
  destruct (fexp prec emax (Zdigits2 m + e) - e); cbn [fst]; auto.
  apply iter_pos_shr_1_nonneg, H0.
Qed.

Lemma round_nearest_even_nonneg m l : 0 <= m -> 0 <= round_nearest_even m l.
Proof.
  intros Hm. destruct l as [|[]]; cbn; try lia. destruct (Z.even m); lia.
Qed.

Lemma binary_round_aux_not_nan sx mx ex lx :
  0 <= mx -> binary_round_aux prec emax sx mx ex lx <> S754_nan.
Proof.
  intros Hm. unfold binary_round_aux.
  pose proof (shr_fexp_nonneg mx ex lx Hm) as H1.
  destruct (shr_fexp prec emax mx ex lx) as [mrs' e']. cbn [fst] in H1.
  pose proof (shr_fexp_nonneg _ e' loc_Exact
                (round_nearest_even_nonneg _ (loc_of_shr_record mrs') H1)) as H2.
  destruct (shr_fexp prec emax _ e' loc_Exact) as [mrs'' e'']. cbn [fst] in H2.
  destruct (shr_m mrs''); try discriminate; try lia.
  destruct (e'' <=? emax - prec); discriminate.
Qed.

Lemma binary_round_not_nan sx mx ex : binary_round prec emax sx mx ex <> S754_nan.
Proof.
  unfold binary_round. destruct (shl_align _ _ _).
  apply binary_round_aux_not_nan. lia.
Qed.

Lemma SFabs_not_negative x : not_negative (SFabs x) = true.
Proof. destruct x; reflexivity. Qed.

Lemma SFabs_at_least_zero x :
  SFeqb x x = true -> at_least_zero (SFabs x) = true.
Proof. destruct x; try discriminate; reflexivity. Qed.

Lemma SFadd_not_negative x y :
  not_negative x = true -> not_negative y = true ->
  not_negative (SFadd prec emax x y) = true.
Proof.
  intros Hx Hy.
  by_class_and_sign x y.
  unfold SFadd, binary_normalize. cbn [cond_Zopp]. rewrite <- Pos2Z.inj_add.
  match goal with |- context [binary_round _ _ ?s ?m ?e] =>
    pose proof (binary_round_sign s m e) as S;
    destruct (binary_round prec emax s m e) end;
    cbn in S; subst; reflexivity.
Qed.

Lemma SFadd_at_least_zero x y :
  at_least_zero x = true -> at_least_zero y = true ->
  at_least_zero (SFadd prec emax x y) = true.
Proof.
  intros Hx Hy.
  by_class_and_sign x y.
  unfold SFadd, binary_normalize. cbn [cond_Zopp]. rewrite <- Pos2Z.inj_add.
  match goal with |- context [binary_round _ _ ?s ?m ?e] =>
    pose proof (binary_round_sign s m e) as S;
    pose proof (binary_round_not_nan s m e) as N;
    destruct (binary_round prec emax s m e) end;
    cbn in S; subst; try reflexivity; congruence.
Qed.

(** Zero minus a number that is not negative is not above zero. *)
Lemma SFsub_zero_not_positive sx y :
  not_negative y = true ->
  not_positive (SFsub prec emax (S754_zero sx) y) = true.
Proof.
  intros Hy. destruct sx, y as [sy|sy| |sy my ey]; try (destruct sy);
    try discriminate Hy; reflexivity.
Qed.
End SpecFloatOrder.

#[local] Close Scope Z_scope.

Lemma Prim2SF_zero : Prim2SF 0 = S754_zero false.
Proof. reflexivity. Qed.

Lemma sub_not_above_zero (b s : float) : (b <=? s) = true -> (0 <? b - s) = false.
Proof.
  intros H. rewrite leb_spec in H.
  rewrite ltb_spec, sub_spec, Prim2SF_zero.
  apply negb_true_iff.
  apply (SFsub_not_positive prec emax); auto using Prim2SF_valid.
Qed.

(** A zero of either sign minus a number that is not below zero. *)
Lemma zero_sub_not_above_zero (b s : float) :
  (b =? 0) = true -> (s <? 0) = false -> (0 <? b - s) = false.
Proof.
  intros Hb H. rewrite FloatAxioms.eqb_spec, Prim2SF_zero in Hb.
  rewrite ltb_spec, Prim2SF_zero in H.
  rewrite ltb_spec, sub_spec, Prim2SF_zero.
  apply negb_true_iff.
  destruct (Prim2SF b) as [sb|sb| |sb mb eb]; try (destruct sb); try discriminate Hb.
  all: apply SFsub_zero_not_positive; unfold not_negative; now rewrite H.
Qed.

Lemma abs_not_below_zero (a : float) : (abs a <? 0) = false.
Proof.
  rewrite ltb_spec, abs_spec, Prim2SF_zero.
  apply negb_true_iff, SFabs_not_negative.
Qed.

(** The absolute value of a number (not NaN) is at least zero. *)
Lemma abs_at_least_zero (a : float) : (a =? a) = true -> (0 <=? abs a) = true.
Proof.
  rewrite FloatAxioms.eqb_spec, leb_spec, abs_spec, Prim2SF_zero.
  apply SFabs_at_least_zero.
Qed.

Lemma add_not_below_zero (x y : float) :
  (x <? 0) = false -> (y <? 0) = false -> (x + y <? 0) = false.
Proof.
  rewrite !ltb_spec, add_spec, Prim2SF_zero. intros Hx Hy.
  apply negb_true_iff, SFadd_not_negative; unfold not_negative;
    [now rewrite Hx | now rewrite Hy].
Qed.

Lemma add_at_least_zero (x y : float) :
  (0 <=? x) = true -> (0 <=? y) = true -> (0 <=? x + y) = true.
Proof.
  rewrite !leb_spec, add_spec, Prim2SF_zero. apply SFadd_at_least_zero.
Qed.



(** Sums of terms that are not below zero. *)
Lemma sumFrom_not_below_zero (terms : list float) (start : float) :
  (start <? 0) = false ->
  Forall (fun x => (x <? 0) = false) terms ->
  (sumFrom start terms <? 0) = false.
Proof.
  intros Hs Ht. revert start Hs.
  induction Ht as [|x terms Hx _ IH]; intros start Hs; [exact Hs|].
  apply IH, add_not_below_zero; assumption.
Qed.

Lemma sumFrom_at_least_zero (terms : list float) (start : float) :
  (0 <=? start) = true ->
  Forall (fun x => (0 <=? x) = true) terms ->
  (0 <=? sumFrom start terms) = true.
Proof.
  intros Hs Ht. revert start Hs.
  induction Ht as [|x terms Hx _ IH]; intros start Hs; [exact Hs|].
  apply IH, add_at_least_zero; assumption.
Qed.

Lemma sum_abs_not_below_zero (terms : list float) :
  (sum (abs <$> terms) <? 0) = false.
Proof.
  apply sumFrom_not_below_zero; [reflexivity|].
  apply Forall_fmap, Forall_true. intros x. apply abs_not_below_zero.
Qed.

(* ================================================================== *)
(** * The loop of the aggregator in closed form                        *)
(* ================================================================== *)

Lemma aggregate_eq (a b : Aggregate) :
  positions a = positions b -> totalInjected a = totalInjected b ->
  totalSold a = totalSold b -> totalDividends a = totalDividends b ->
  totalFees a = totalFees b -> a = b.
Proof. destruct a, b; cbn; congruence. Qed.

Lemma sumFrom_app start xs ys :
  sumFrom start (xs ++ ys) = sumFrom (sumFrom start xs) ys.
Proof. apply fold_left_app. Qed.

Lemma omap_cons_app {A B} (f : A -> option B) (x : A) (l : list A) :
  omap f (x :: l) = omap f [x] ++ omap f l.
Proof. cbn. destruct (f x); reflexivity. Qed.

Lemma statsFrom_app before bought1 sold1 bought2 sold2 :
  statsFrom (statsFrom before bought1 sold1) bought2 sold2
  = statsFrom before (bought1 ++ bought2) (sold1 ++ sold2).
Proof.
  destruct bought1, sold1, bought2, sold2; cbn;
    rewrite ?app_nil_r, ?fmap_app; unfold sumFrom; cbn;
    rewrite ?fold_left_app; reflexivity.
Qed.

(** The lazy initialisation followed by the update in place, as one
    lookup.  Under an inherited name that holds no statistics nothing is
    created and nothing is updated. *)
Lemma lookup_alter_ensureStats f ticker (ts : gmap string TickerStats) t :
  alter f ticker (ensureStats ticker ts) !! t
  = if decide (ticker = t) then
      match ts !! ticker with
      | Some s => Some (f s)
      | None => if inherited ticker then None else Some (f newStats)
      end
    else ts !! t.
Proof.
  unfold ensureStats. case_decide as E.
  - subst t. rewrite lookup_alter_eq.
    destruct (ts !! ticker) as [s|] eqn:L.
    + now rewrite L.
    + destruct (inherited ticker); [now rewrite L | now rewrite lookup_insert_eq].
  - rewrite lookup_alter_ne by exact E.
    destruct (ts !! ticker); [reflexivity|].
    destruct (inherited ticker); [reflexivity | now rewrite lookup_insert_ne].
Qed.

Lemma statsFrom_Some s bought soldQ : is_Some (statsFrom (Some s) bought soldQ).
Proof. destruct bought, soldQ; cbn; eauto. Qed.

Lemma step_tickerStats v transaction t :
  tickerStats (step v transaction) !! t = statsAfter (tickerStats v !! t) t [transaction].
Proof.
  unfold statsAfter.
  destruct transaction as [ticker [] quantity price amount | |]; cbn -[inherited];
    try (destruct (tickerStats v !! t); [|destruct (inherited t)]; reflexivity).
  - destruct (String.eqb_spec ticker "EUR") as [->|NE]; cbn -[inherited];
      [destruct (tickerStats v !! t); [|destruct (inherited t)]; reflexivity|].
    rewrite lookup_alter_ensureStats.
    destruct (String.eqb_spec ticker t) as [->|NT].
    + rewrite decide_True by reflexivity.
      destruct (tickerStats v !! t); [reflexivity|].
      destruct (inherited t); reflexivity.
    + rewrite decide_False by exact NT.
      destruct (tickerStats v !! t); [|destruct (inherited t)]; reflexivity.
  - rewrite andb_false_r. cbn -[inherited]. rewrite lookup_alter_ensureStats.
    destruct (String.eqb_spec ticker t) as [->|NT].
    + rewrite decide_True by reflexivity.
      destruct (tickerStats v !! t); [reflexivity|].
      destruct (inherited t); reflexivity.
    + rewrite decide_False by exact NT.
      destruct (tickerStats v !! t); [|destruct (inherited t)]; reflexivity.
Qed.

Lemma statsAfter_app before t l1 l2 :
  statsAfter (statsAfter before t l1) t l2 = statsAfter before t (l1 ++ l2).
Proof.
  unfold statsAfter. rewrite !omap_app.
  destruct before as [s|].
  - destruct (statsFrom_Some s (omap (boughtBy t) l1) (omap (soldBy t) l1)) as [s' E].
    rewrite E, <- E. apply statsFrom_app.
  - destruct (inherited t); [reflexivity|].
    pose proof (statsFrom_app None (omap (boughtBy t) l1) (omap (soldBy t) l1)
                  (omap (boughtBy t) l2) (omap (soldBy t) l2)) as A.
    destruct (statsFrom None (omap (boughtBy t) l1) (omap (soldBy t) l1));
      exact A.
Qed.

Lemma loop_tickerStats l v t :
  tickerStats (fold_left step l v) !! t = statsAfter (tickerStats v !! t) t l.
Proof.
  revert v. induction l as [|transaction l IH]; intros v.
  - unfold statsAfter. cbn. destruct (tickerStats v !! t); [|destruct (inherited t)];
      reflexivity.
  - cbn [fold_left]. rewrite IH, step_tickerStats.
    apply (statsAfter_app _ t [transaction] l).
Qed.

Lemma loop_totals l v :
  injected (fold_left step l v) = sumFrom (injected v) (omap injectedAmount l)
  /\ sold (fold_left step l v) = sumFrom (sold v) (omap soldAmount l)
  /\ dividends (fold_left step l v) = sumFrom (dividends v) (omap dividendAmount l)
  /\ fees (fold_left step l v) = sumFrom (fees v) (abs <$> omap feeAmount l).
Proof.
  revert v. induction l as [|transaction l IH]; intros v.
  - repeat split.
  - cbn [fold_left]. destruct (IH (step v transaction)) as (I & S & D & F).
    rewrite I, S, D, F.
    destruct transaction as [ticker [] quantity price amount | |]; cbn;
      try destruct (String.eqb ticker "EUR"); cbn; repeat split.
Qed.

Lemma positions_lookup l t :
  positions (calculateAveragePrices l) !! t
  = if inherited t then None
    else statsFrom None (omap (boughtBy t) l) (omap (soldBy t) l) ≫= positionOf.
Proof.
  unfold calculateAveragePrices, finish. cbn [positions].
  rewrite lookup_omap, loop_tickerStats. cbn [initialLocals tickerStats].
  rewrite lookup_empty. unfold statsAfter. now destruct (inherited t).
Qed.

(** No position is written under a name inherited from
    [Object.prototype]. *)
Lemma positions_own_names l t p :
  positions (calculateAveragePrices l) !! t = Some p -> inherited t = false.
Proof. rewrite positions_lookup. now destruct (inherited t). Qed.

Lemma totals_closed l :
  totalInjected (calculateAveragePrices l) = sum (omap injectedAmount l)
  /\ totalSold (calculateAveragePrices l) = sum (omap soldAmount l)
  /\ totalDividends (calculateAveragePrices l) = sum (omap dividendAmount l)
  /\ totalFees (calculateAveragePrices l) = sum (abs <$> omap feeAmount l).
Proof. exact (loop_totals l initialLocals). Qed.

(** The statistics behind a written position: the three running totals
    are the sums over the ticker's Buy and Sell records. *)
Lemma position_stats l t p :
  positions (calculateAveragePrices l) !! t = Some p ->
  exists stats,
    tickerStats (fold_left step l initialLocals) !! t = Some stats
    /\ positionOf stats = Some p
    /\ stats = mkStats (sum (boughtQuantities t l)) (sum (soldQuantities t l))
                       (sum (boughtAmounts t l)).
Proof.
  unfold calculateAveragePrices, finish. cbn [positions].
  intros (stats & P & L)%lookup_omap_Some.
  exists stats. split; [exact L|]. split; [exact P|].
  rewrite loop_tickerStats in L. revert L.
  unfold statsAfter, statsFrom, boughtQuantities, soldQuantities, boughtAmounts.
  cbn [initialLocals tickerStats]. rewrite lookup_empty.
  destruct (inherited t); [discriminate|].
  destruct (omap (boughtBy t) l), (omap (soldBy t) l);
    [discriminate | intros [= <-]; reflexivity..].
Qed.

(** A position written for a ticker, in terms of the ticker's Buy and
    Sell records. *)
Lemma position_inv l t p :
  positions (calculateAveragePrices l) !! t = Some p ->
  let b := sum (boughtQuantities t l) in
  let s := sum (soldQuantities t l) in
  (0 <? b - s) = true
  /\ p = mkPosition (sum (boughtAmounts t l) / b) (b - s).
Proof.
  rewrite positions_lookup. destruct (inherited t); [discriminate|].
  unfold boughtQuantities, boughtAmounts, soldQuantities, statsFrom, positionOf, sum.
  destruct (omap (boughtBy t) l) as [|b bs], (omap (soldBy t) l) as [|s ss];
    cbn; try discriminate;
    match goal with |- context [0 <? ?q] => destruct (0 <? q) eqn:Q end;
    cbn; intros [= <-]; auto.
Qed.

(** The converse: when the remaining quantity is not above zero, no
    position is written. *)
Lemma position_none l t :
  (0 <? sum (boughtQuantities t l) - sum (soldQuantities t l)) = false ->
  positions (calculateAveragePrices l) !! t = None.
Proof.
  intros Q. destruct (positions (calculateAveragePrices l) !! t) as [p|] eqn:P;
    [|reflexivity].
  apply position_inv in P as [Q' _]. cbn in Q'. congruence.
Qed.

(* ================================================================== *)
(** * The records of one row                                           *)
(* ================================================================== *)

(** The three types matched by equality contain neither BUY nor SELL. *)
Lemma trade_type_exclusive (type : string) :
  (includes type "BUY" || includes type "SELL") = true ->
  String.eqb type "DIVIDEND" = false
  /\ String.eqb type "ROBO MANAGEMENT FEE" = false
  /\ String.eqb type "CASH TOP-UP" = false.
Proof.
  intros H. repeat split.
  all: match goal with |- String.eqb ?t ?s = false =>
         destruct (String.eqb_spec t s) as [->|]; [|reflexivity] end.
  all: vm_compute in H; discriminate H.
Qed.

Lemma rowRecords_trade (row : gmap string string) (ticker price : string) :
  nonEmpty (row !! "Ticker") = Some ticker ->
  (includes (rowType row) "BUY" || includes (rowType row) "SELL") = true ->
  row !! "Price per share" = Some price ->
  rowRecords row
  = Normal [Trade ticker (if includes (rowType row) "BUY" then BUY else SELL)
                  (parseFloatCell (row !! "Quantity"))
                  (parseFloat (stripCurrency price))
                  (rowTotalAmount row)].
Proof.
  intros T K P. unfold rowRecords. rewrite T, K, P.
  destruct (trade_type_exclusive _ K) as (-> & -> & ->). reflexivity.
Qed.

Lemma rowRecords_thrown (row : gmap string string) (e : Exception) :
  rowRecords row = Thrown e
  <-> e = TypeError /\ isTradeRow row = true /\ row !! "Price per share" = None.
Proof.
  unfold rowRecords, isTradeRow.
  destruct (nonEmpty (row !! "Ticker")) as [ticker|];
    [destruct (includes (rowType row) "BUY" || includes (rowType row) "SELL");
     [destruct (row !! "Price per share") as [price|] |] |].
  all: split; [intros H | intros (H1 & H2 & H3)];
    try discriminate; try congruence.
  injection H as <-. auto.
Qed.

Lemma rowRecords_cash_top_up (row : gmap string string) :
  row !! "Type" = Some "CASH TOP-UP" ->
  rowRecords row = Normal [cashTopUp (rowTotalAmount row)].
Proof.
  intros T. unfold rowRecords.
  assert (rowType row = "CASH TOP-UP") as -> by (unfold rowType; now rewrite T).
  change (includes "CASH TOP-UP" "BUY" || includes "CASH TOP-UP" "SELL") with false.
  destruct (nonEmpty (row !! "Ticker")); reflexivity.
Qed.

Lemma rowRecords_dividend (row : gmap string string) :
  row !! "Type" = Some "DIVIDEND" ->
  rowRecords row
  = Normal [Dividend (nonEmpty (row !! "Ticker")) (rowTotalAmount row)].
Proof.
  intros T. unfold rowRecords.
  assert (rowType row = "DIVIDEND") as -> by (unfold rowType; now rewrite T).
  change (includes "DIVIDEND" "BUY" || includes "DIVIDEND" "SELL") with false.
  destruct (nonEmpty (row !! "Ticker")); reflexivity.
Qed.

Lemma rowRecords_fee (row : gmap string string) :
  row !! "Type" = Some "ROBO MANAGEMENT FEE" ->
  rowRecords row = Normal [Fee (rowTotalAmount row)].
Proof.
  intros T. unfold rowRecords.
  assert (rowType row = "ROBO MANAGEMENT FEE") as ->
    by (unfold rowType; now rewrite T).
  change (includes "ROBO MANAGEMENT FEE" "BUY"
          || includes "ROBO MANAGEMENT FEE" "SELL") with false.
  destruct (nonEmpty (row !! "Ticker")); reflexivity.
Qed.

Lemma parseFloat_no_number (text : string) :
  noNumericPrefix text = true -> parseFloat text = nan.
Proof.
  unfold noNumericPrefix, parseFloat.
  destruct (readSign (trimStart text)) as [negative s]. cbn [snd].
  intros H. apply andb_prop in H as [H Hpoint]. apply andb_prop in H as [Hinf Hdigit].
  apply negb_true_iff in Hinf. rewrite Hinf.
  destruct s as [|c s]; [reflexivity|].
  cbn [startsWithDigit] in Hdigit. cbn [readDigits].
  destruct (digitValue c) eqn:Dc; [discriminate Hdigit|].
  destruct (Ascii.eqb_spec c ".") as [->|NP].
  - destruct s as [|c' s]; [reflexivity|].
    cbn [startsWithDigit] in Hpoint. cbn [readDigits].
    destruct (digitValue c'); [discriminate Hpoint | reflexivity].
  - destruct c as [[] [] [] [] [] [] [] []]; try reflexivity. now contradict NP.
Qed.

(** A cash top-up met anywhere in the sequence adds its amount to
    [totalInjected] and leaves everything else as it would be without
    it. *)
Lemma cash_top_up_inserted (before after : list Transaction)
  (quantity price amount : float) :
  calculateAveragePrices (before ++ Trade "EUR" BUY quantity price amount :: after)
  = mkAggregate
      (positions (calculateAveragePrices (before ++ after)))
      (sumFrom (sum (omap injectedAmount before) + amount) (omap injectedAmount after))
      (totalSold (calculateAveragePrices (before ++ after)))
      (totalDividends (calculateAveragePrices (before ++ after)))
      (totalFees (calculateAveragePrices (before ++ after))).
Proof.
  destruct (totals_closed (before ++ Trade "EUR" BUY quantity price amount :: after))
    as (I1 & S1 & D1 & F1).
  destruct (totals_closed (before ++ after)) as (I2 & S2 & D2 & F2).
  apply aggregate_eq; cbn [positions totalInjected totalSold totalDividends totalFees].
  - apply map_eq. intros t. rewrite !positions_lookup, !omap_app. reflexivity.
  - rewrite I1, omap_app. unfold sum. rewrite sumFrom_app. reflexivity.
  - rewrite S1, S2, !omap_app. reflexivity.
  - rewrite D1, D2, !omap_app. reflexivity.
  - rewrite F1, F2, !omap_app. reflexivity.
Qed.

(* ================================================================== *)
(** * Tickers without bought quantity, and the end of [main]           *)
(* ================================================================== *)

(** With a cumulative bought quantity of zero and no negative sold
    quantity, the remaining quantity is not above zero. *)
Lemma zero_bought_omitted (l : list Transaction) (t : string) :
  (sum (boughtQuantities t l) =? 0) = true ->
  Forall (fun q => (q <? 0) = false) (soldQuantities t l) ->
  positions (calculateAveragePrices l) !! t = None.
Proof.
  intros B S. apply position_none, zero_sub_not_above_zero; [exact B|].
  apply sumFrom_not_below_zero; [reflexivity | exact S].
Qed.

(** No record is a Buy of EUR for the statistics. *)
Lemma boughtBy_EUR (l : list Transaction) : omap (boughtBy "EUR") l = [].
Proof.
  induction l as [|transaction l IH]; [reflexivity|].
  rewrite omap_cons_app, IH.
  destruct transaction as [ticker [] quantity price amount | |]; cbn -[String.eqb];
    try reflexivity.
  destruct (String.eqb_spec ticker "EUR") as [->|]; reflexivity.
Qed.

Lemma elem_of_missingTickers (tickerToIsin : gmap string string)
  (pos : gmap string Position) (ticker : string) :
  ticker ∈ missingTickers tickerToIsin pos
  <-> is_Some (pos !! ticker) /\ lacksIsin tickerToIsin ticker = true.
Proof.
  unfold missingTickers. rewrite list_elem_of_filter, list_elem_of_fmap. split.
  - intros (L & [ticker' p] & -> & E). apply elem_of_map_to_list in E. eauto.
  - intros ([p P] & L). split; [exact L|].
    exists (ticker, p). split; [reflexivity | now apply elem_of_map_to_list].
Qed.

(** Past the checks on the configuration and the folder, with a file
    that parses, [main] ends as [report] does. *)
Lemma main_reports (w : World) (files : list (string * option string))
  (name content : string) (transactions : list Transaction) :
  size (loadTickerToIsin (env w)) <> 0%nat ->
  documents w = Some files ->
  find (fun file => endsWith file.1 ".csv") files = Some (name, Some content) ->
  parseCSV content = Normal transactions ->
  main w = report (loadTickerToIsin (env w)) (prototypeAfter transactions)
                  (calculateAveragePrices transactions).
Proof.
  intros M D F P. unfold main.
  rewrite decide_False by exact M. now rewrite D, F, P.
Qed.


(** For a ticker other than EUR, the Buy records that reach the
    statistics are the Buy records as written. *)
Lemma boughtBy_buysOf (ticker : string) (l : list Transaction) :
  ticker <> "EUR" -> omap (boughtBy ticker) l = buysOf ticker l.
Proof.
  intros NE. unfold buysOf. induction l as [|transaction l IH]; [reflexivity|].
  rewrite (omap_cons_app (boughtBy ticker)), (omap_cons_app (buyOf ticker)), IH.
  f_equal. destruct transaction as [t [] quantity price amount | |]; try reflexivity.
  cbn -[String.eqb]. destruct (String.eqb_spec t "EUR") as [->|]; [|reflexivity].
  destruct (String.eqb_spec "EUR" ticker) as [<-|]; [now destruct NE | reflexivity].
Qed.

(** What one iteration adds to [Object.prototype], as long as
    [tickerStats] holds nothing under [__proto__], which the loop never
    changes. *)
Lemma step_proto_stats (v : Locals) (transaction : Transaction) :
  tickerStats v !! "__proto__" = None ->
  tickerStats (step v transaction) !! "__proto__" = None.
Proof. intros N. rewrite step_tickerStats, N. reflexivity. Qed.

Lemma step_objectPrototype (v : Locals) (transaction : Transaction) :
  tickerStats v !! "__proto__" = None ->
  objectPrototype (step v transaction)
  = prototypeWrites transaction ∪ objectPrototype v.
Proof.
  intros N.
  destruct transaction as [ticker type quantity price amount | |];
    [|cbn; now rewrite (left_id_L ∅ (∪))..].
  cbn -[String.eqb]. destruct (String.eqb_spec ticker "__proto__") as [->|NP].
  - assert (E : ensureStats "__proto__" (tickerStats v) !! "__proto__" = None)
      by (unfold ensureStats; now rewrite N).
    unfold written. destruct type; cbn -[ensureStats]; rewrite E; cbn;
      now rewrite ?(right_id_L ∅ (∪)).
  - apply String.eqb_neq in NP. unfold written. rewrite NP.
    rewrite (left_id_L ∅ (∪)).
    destruct (String.eqb ticker "EUR" && _); [reflexivity|].
    destruct type; cbn; destruct (ensureStats _ _ !! _); reflexivity.
Qed.

Lemma loop_objectPrototype (l : list Transaction) (v : Locals) :
  tickerStats v !! "__proto__" = None ->
  objectPrototype (fold_left step l v)
  = ⋃ (prototypeWrites <$> l) ∪ objectPrototype v.
Proof.
  revert v. induction l as [|transaction l IH]; intros v N.
  - cbn. now rewrite (left_id_L ∅ (∪)).
  - cbn [fold_left]. rewrite IH by now apply step_proto_stats.
    rewrite step_objectPrototype by exact N. rewrite fmap_cons. cbn.
    rewrite (assoc_L (∪)). f_equal. apply (comm_L (∪)).
Qed.

Lemma prototypeAfter_writes (l : list Transaction) :
  prototypeAfter l = ⋃ (prototypeWrites <$> l).
Proof.
  unfold prototypeAfter. rewrite loop_objectPrototype by apply lookup_empty.
  cbn. now rewrite (right_id_L ∅ (∪)).
Qed.

Lemma prototypeAfter_clean (l : list Transaction) :
  Forall (fun transaction => tradeOf "__proto__" transaction = false) l ->
  prototypeAfter l = ∅.
Proof.
  intros F. rewrite prototypeAfter_writes.
  induction F as [|transaction l T F IH]; [reflexivity|].
  rewrite fmap_cons. cbn. rewrite IH, (right_id_L ∅ (∪)).
  destruct transaction as [ticker type quantity price amount | |];
    [|reflexivity..].
  cbn -[String.eqb] in *. now rewrite T.
Qed.

(** When the end of the run is a processing error. *)
Lemma report_error (tickerToIsin : gmap string string) (prototype : gset string)
  (a : Aggregate) (e : Exception) :
  report tickerToIsin prototype a = ProcessingError e
  <-> e = TypeError
      /\ missingTickers tickerToIsin (positions a) = []
      /\ exists name, name ∈ prototype /\ positions a !! name = None.
Proof.
  unfold report, printable.
  destruct (missingTickers tickerToIsin (positions a)) as [|t ts].
  - destruct (forallb _ _) eqn:P.
    + split; [discriminate|]. intros (_ & _ & name & I & N).
      rewrite forallb_forall in P. specialize (P name).
      rewrite bool_decide_eq_true, N in P.
      destruct P as [? [=]]. apply list_elem_of_In, elem_of_elements, I.
    + split; [|now intros (-> & _)]. intros [= <-].
      split; [reflexivity|]. split; [reflexivity|].
      apply (f_equal negb) in P. cbn in P.
      destruct (existsb_exists
                  (fun name => negb (bool_decide (is_Some (positions a !! name))))
                  (elements prototype)) as [E _].
      destruct E as (name & I & N).
      { rewrite <- P. clear P. induction (elements prototype) as [|x xs IH];
          [reflexivity|]. cbn. rewrite negb_andb, IH. reflexivity. }
      exists name. split; [apply elem_of_elements, list_elem_of_In, I|].
      apply negb_true_iff, bool_decide_eq_false in N.
      destruct (positions a !! name); [destruct N; eauto | reflexivity].
  - split; [discriminate|]. intros (_ & [=] & _).
Qed.

Lemma NoDup_missingTickers (tickerToIsin : gmap string string)
  (pos : gmap string Position) : NoDup (missingTickers tickerToIsin pos).
Proof. apply NoDup_filter, NoDup_fst_map_to_list. Qed.

Lemma lacksIsin_lookup (tickerToIsin : gmap string string) (ticker : string) :
  lacksIsin tickerToIsin ticker = true
  <-> tickerToIsin !! ticker = None \/ tickerToIsin !! ticker = Some "".
Proof.
  unfold lacksIsin. destruct (tickerToIsin !! ticker) as [[|c isin]|]; cbn.
  - split; auto.
  - split; [discriminate | intros [[=]|[=]]].
  - split; auto.
Qed.
(* ================================================================== *)
(** * The model run on sample inputs                                   *)
(* ================================================================== *)

(** [parseFloat] agrees with the correctly rounded literals of the
    prover, and reads no number where there is none. *)
Example parseFloat_samples :
  parseFloat <$> [ "0.1"; "76.035"; "8.10661844"; "  12.5 EUR"; "-0.25";
                   "1e3"; ".5"; "5."; "1e-320"; "9007199254740993";
                   "1.7976931348623157e308"; "1e400"; "-Infinity" ]
  = [ 0.1; 76.035; 8.10661844; 12.5; -0.25; 1000; 0.5; 5; 1e-320;
      9007199254740992; 1.7976931348623157e308; infinity; neg_infinity ].
Proof. vm_compute. reflexivity. Qed.

Example parseFloat_not_a_number :
  parseFloat <$> [ "abc"; ""; "."; "-"; "e5"; "undefined"; "€5"; "n/a" ]
  = [ nan; nan; nan; nan; nan; nan; nan; nan ].
Proof. vm_compute. reflexivity. Qed.

Example string_methods :
  split "a,b,,c" "," = ["a"; "b"; ""; "c"]
  /\ split "" "," = [""]
  /\ stripCurrency "€1,234" = "1,234"
  /\ stripCurrency "EUR 76.04" = "76.04"
  /\ replace "EUR 5 EUR 6" "EUR " "" = "5 EUR 6"
  /\ includes "BUY - MARKET" "BUY" = true
  /\ includes "CASH TOP-UP" "BUY" = false
  /\ endsWith "transactions.csv" ".csv" = true
  /\ trim (String lineFeed "  a b  " +:+ String lineFeed "") = "a b".
Proof. repeat split; vm_compute; reflexivity. Qed.

(** A statement with every kind of row, a row of an unknown type and a
    BUY row without ticker: the last two push nothing. *)
Example parseCSV_sample :
  parseCSV
    (lines [ "Date,Ticker,Type,Quantity,Price per share,Total Amount,Currency";
             "2024-01-01,,CASH TOP-UP,,,€100,EUR";
             "2024-01-02,TICK_A,BUY - MARKET,10,€5,€50,EUR";
             "2024-01-03,TICK_A,SELL - MARKET,4,€6,€24,EUR";
             "2024-01-04,TICK_A,DIVIDEND,,,EUR 1,EUR";
             "2024-01-05,,ROBO MANAGEMENT FEE,,,-€0.25,EUR";
             "2024-01-06,,CUSTODY FEE,,,€1,EUR";
             "2024-01-07,,BUY - MARKET,1,€1,€1,EUR" ])
  = Normal [ Trade "EUR" BUY 100 1 100; Trade "TICK_A" BUY 10 5 50;
             Trade "TICK_A" SELL 4 6 24; Dividend (Some "TICK_A") 1;
             Fee (-0.25) ].
Proof. vm_compute. reflexivity. Qed.

(** A BUY row that stops before the price column raises the
    [TypeError], and [main] ends in its [catch]. *)
Example parseCSV_short_row :
  parseCSV (lines ["Ticker,Type,Quantity,Price per share"; "AAA,BUY,3"])
  = Thrown TypeError.
Proof. vm_compute. reflexivity. Qed.

(* ================================================================== *)
(** * Results                                                          *)
(* ================================================================== *)

(** C1.  The scenario of the specification: a buy of 10 at 5 (total 50),
    a sale of 4 (total 24), a dividend of 1 and a cash top-up of 100 give
    exactly one position, TICK_A with remaining quantity 6 and average
    price 5, and the totals 100 injected, 24 sold, 1 of dividends and no
    fees.  The price per share of the sale, which the scenario leaves
    open, is arbitrary. *)
Theorem C1_scenario (sellPrice : float) :
  calculateAveragePrices
    [ Trade "TICK_A" BUY 10 5 50;
      Trade "TICK_A" SELL 4 sellPrice 24;
      Dividend (Some "TICK_A") 1;
      cashTopUp 100 ]
  = mkAggregate {[ "TICK_A" := mkPosition 5 6 ]} 100 24 1 0.
Proof. vm_compute. reflexivity. Qed.

(** C2, as stated, fails for the ticker EUR: its Buy records are taken
    as cash top-ups and never reach its statistics.  After a buy of 10
    for 50 and a sale of minus 1, [positions] holds EUR with the average
    price 0 / 0, which is NaN, and the quantity 1, where the Buy records
    of EUR give 50 / 10 = 5 and 10 - (-1) = 11. *)
Lemma C2_counterexample :
  positions (calculateAveragePrices eurTrades) !! "EUR" = Some (mkPosition nan 1)
  /\ buysOf "EUR" eurTrades = [(10, 50)]
  /\ soldQuantities "EUR" eurTrades = [-1]
  /\ sum (buysOf "EUR" eurTrades).*2 / sum (buysOf "EUR" eurTrades).*1 = 5
  /\ sum (buysOf "EUR" eurTrades).*1 - sum (soldQuantities "EUR" eurTrades) = 11
  /\ (nan =? 5) = false
  /\ (1 =? 11) = false.
Proof. repeat split; vm_compute; reflexivity. Qed.

(** C2, amended.  For every ticker written to [positions], the average
    price is [totalBoughtAmount / boughtQuantity] and the remaining
    quantity is [boughtQuantity - soldQuantity] of the ticker's
    statistics at the end of the loop, where [soldQuantity] is the sum
    of [quantity] over the ticker's Sell records and, for every ticker
    other than EUR, [totalBoughtAmount] is the sum of [totalAmount] over
    all the Buy records of the ticker and [boughtQuantity] the sum of
    their [quantity] (sums taken in record order, as the loop adds
    them); for the ticker EUR both are 0.  Sell records play no part in
    the average price: any record sequence with the same Buy records for
    the ticker gives it the same average price. *)
Theorem C2_average_price_from_buys (transactions : list Transaction)
  (ticker : string) (p : Position) :
  positions (calculateAveragePrices transactions) !! ticker = Some p ->
  (exists stats,
     tickerStats (fold_left step transactions initialLocals) !! ticker = Some stats
     /\ averagePrice p = totalBoughtAmount stats / boughtQuantity stats
     /\ totalQuantity p = boughtQuantity stats - soldQuantity stats
     /\ soldQuantity stats = sum (soldQuantities ticker transactions)
     /\ (ticker <> "EUR" ->
         totalBoughtAmount stats = sum (buysOf ticker transactions).*2
         /\ boughtQuantity stats = sum (buysOf ticker transactions).*1)
     /\ (ticker = "EUR" ->
         totalBoughtAmount stats = 0 /\ boughtQuantity stats = 0))
  /\ forall transactions' p',
       (ticker <> "EUR" -> buysOf ticker transactions' = buysOf ticker transactions) ->
       positions (calculateAveragePrices transactions') !! ticker = Some p' ->
       averagePrice p' = averagePrice p.
Proof.
  intros P. split.
  - destruct (position_stats _ _ _ P) as (stats & L & Pos & E).
    exists stats. split; [exact L|].
    unfold positionOf in Pos.
    destruct (0 <? boughtQuantity stats - soldQuantity stats); [|discriminate].
    injection Pos as <-. rewrite E. cbn.
    split; [reflexivity|]. split; [reflexivity|]. split; [reflexivity|].
    unfold boughtAmounts, boughtQuantities. split.
    + intros NE. now rewrite boughtBy_buysOf.
    + intros ->. now rewrite boughtBy_EUR.
  - apply position_inv in P as [_ ->].
    intros l' p' Same P'. apply position_inv in P' as [_ ->]. cbn.
    unfold boughtAmounts, boughtQuantities.
    destruct (String.eqb_spec ticker "EUR") as [->|NE].
    + now rewrite !boughtBy_EUR.
    + now rewrite !boughtBy_buysOf, Same.
Qed.

Lemma C2_witness :
  (exists stats,
     tickerStats (fold_left step keptAndSoldOut initialLocals) !! "A" = Some stats
     /\ averagePrice (mkPosition 5 6) = totalBoughtAmount stats / boughtQuantity stats
     /\ totalQuantity (mkPosition 5 6) = boughtQuantity stats - soldQuantity stats
     /\ soldQuantity stats = sum (soldQuantities "A" keptAndSoldOut)
     /\ ("A" <> "EUR" ->
         totalBoughtAmount stats = sum (buysOf "A" keptAndSoldOut).*2
         /\ boughtQuantity stats = sum (buysOf "A" keptAndSoldOut).*1)
     /\ ("A" = "EUR" ->
         totalBoughtAmount stats = 0 /\ boughtQuantity stats = 0))
  /\ forall transactions' p',
       ("A" <> "EUR" -> buysOf "A" transactions' = buysOf "A" keptAndSoldOut) ->
       positions (calculateAveragePrices transactions') !! "A" = Some p' ->
       averagePrice p' = averagePrice (mkPosition 5 6).
Proof.
  apply (C2_average_price_from_buys keptAndSoldOut "A" (mkPosition 5 6)).
  vm_compute. reflexivity.
Defined.

(** C3, as stated, fails: nothing in the program raises an error for a
    sale without a buy.  A statement whose only data line sells 4 shares
    of a ticker never bought is parsed, aggregated and reported: the
    ticker has no position, the sale counts in the total sold, and the
    run ends with status 0. *)
Lemma C3_counterexample :
  calculateAveragePrices [Trade "AAA" SELL 4 6 24] = mkAggregate ∅ 0 24 0 0
  /\ main sellOnlyWorld = Report [] (0, 24, -24, 0, 0)
  /\ exitStatus (main sellOnlyWorld) = 0%nat.
Proof. repeat split; vm_compute; reflexivity. Qed.

(** C3, amended.  A ticker whose cumulative bought quantity is zero (as
    when it has Sell records and no Buy record) raises no error of its
    own: the aggregation returns its normal result, in which the ticker
    has no position as long as none of its sold quantities is negative,
    so that no average price is computed for it, and every sale still
    counts in [totalSold].  The end of the run turns that result into a
    processing error in one case only: when the identifiers are complete
    and printing meets a property that a trade of the ticker [__proto__]
    has added to [Object.prototype]; without a trade of [__proto__] the
    run ends with the report or with the missing identifiers. *)
Theorem C3_sale_without_buy_is_omitted (transactions : list Transaction)
  (ticker : string) :
  (sum (boughtQuantities ticker transactions) =? 0) = true ->
  Forall (fun q => (q <? 0) = false) (soldQuantities ticker transactions) ->
  positions (calculateAveragePrices transactions) !! ticker = None
  /\ totalSold (calculateAveragePrices transactions)
     = sum (omap soldAmount transactions)
  /\ (forall tickerToIsin e,
        report tickerToIsin (prototypeAfter transactions)
               (calculateAveragePrices transactions)
        = ProcessingError e
        <-> e = TypeError
            /\ missingTickers tickerToIsin
                 (positions (calculateAveragePrices transactions)) = []
            /\ exists name,
                 name ∈ prototypeAfter transactions
                 /\ positions (calculateAveragePrices transactions) !! name = None)
  /\ (Forall (fun transaction => tradeOf "__proto__" transaction = false)
             transactions ->
      prototypeAfter transactions = ∅).
Proof.
  intros B S. split; [|split; [|split]].
  - apply zero_bought_omitted; assumption.
  - apply totals_closed.
  - intros tickerToIsin e. apply report_error.
  - apply prototypeAfter_clean.
Qed.

Lemma C3_witness :
  positions (calculateAveragePrices [Trade "AAA" SELL 4 6 24]) !! "AAA" = None
  /\ totalSold (calculateAveragePrices [Trade "AAA" SELL 4 6 24])
     = sum (omap soldAmount [Trade "AAA" SELL 4 6 24])
  /\ prototypeAfter [Trade "AAA" SELL 4 6 24] = ∅.
Proof.
  destruct (C3_sale_without_buy_is_omitted [Trade "AAA" SELL 4 6 24] "AAA")
    as (P & T & _ & C).
  - vm_compute. reflexivity.
  - repeat constructor.
  - split; [exact P|]. split; [exact T|]. apply C. repeat constructor.
Defined.

(** C4, as stated, fails: [parseFloat] never throws.  A BUY row whose
    total amount is the text n/a and a top-up whose amount is the text
    pending are both parsed into records carrying NaN, both aggregated,
    and the report is printed with NaN in it; the run ends with status
    0. *)
Lemma C4_counterexample :
  parseCSV unparsableCsv
  = Normal [Trade "AAA" BUY 10 5 nan; Trade "EUR" BUY nan 1 nan]
  /\ main unparsableWorld
     = Report [("US0000000001", 10, nan)] (nan, 0, nan, 0, 0)
  /\ exitStatus (main unparsableWorld) = 0%nat.
Proof. repeat split; vm_compute; reflexivity. Qed.

(** C4, amended.  A required numeric field that fails numeric parsing
    does not abort the run: a text with no numeric prefix is read as
    NaN, and the row is pushed with whatever [parseFloat] returns for
    its fields, be it a row with a ticker whose type contains BUY or
    SELL (quantity, price and total amount), a DIVIDEND row, a ROBO
    MANAGEMENT FEE row or a CASH TOP-UP row (total amount).  The only
    exception a row can raise is the [TypeError] of a row with a ticker
    and a BUY or SELL type whose price-per-share cell is missing. *)
Theorem C4_unparsable_field_is_NaN (row : gmap string string) :
  (forall e, rowRecords row = Thrown e
             <-> e = TypeError /\ isTradeRow row = true
                 /\ row !! "Price per share" = None)
  /\ (forall text, noNumericPrefix text = true -> parseFloat text = nan)
  /\ (forall ticker price,
        nonEmpty (row !! "Ticker") = Some ticker ->
        (includes (rowType row) "BUY" || includes (rowType row) "SELL") = true ->
        row !! "Price per share" = Some price ->
        rowRecords row
        = Normal [Trade ticker (if includes (rowType row) "BUY" then BUY else SELL)
                        (parseFloatCell (row !! "Quantity"))
                        (parseFloat (stripCurrency price))
                        (rowTotalAmount row)])
  /\ (row !! "Type" = Some "DIVIDEND" ->
      rowRecords row
      = Normal [Dividend (nonEmpty (row !! "Ticker")) (rowTotalAmount row)])
  /\ (row !! "Type" = Some "ROBO MANAGEMENT FEE" ->
      rowRecords row = Normal [Fee (rowTotalAmount row)])
  /\ (row !! "Type" = Some "CASH TOP-UP" ->
      rowRecords row = Normal [cashTopUp (rowTotalAmount row)]).
Proof.
  split; [apply rowRecords_thrown|].
  split; [apply parseFloat_no_number|].
  split; [apply rowRecords_trade|].
  split; [apply rowRecords_dividend|].
  split; [apply rowRecords_fee | apply rowRecords_cash_top_up].
Qed.

Lemma C4_witness :
  parseFloat "abc" = nan
  /\ rowRecords unparsableRow
     = Normal [Trade "AAA" (if includes (rowType unparsableRow) "BUY" then BUY else SELL)
                     (parseFloatCell (unparsableRow !! "Quantity"))
                     (parseFloat (stripCurrency "€5"))
                     (rowTotalAmount unparsableRow)]
  /\ rowRecords pendingTopUpRow = Normal [cashTopUp (rowTotalAmount pendingTopUpRow)].
Proof.
  pose proof (C4_unparsable_field_is_NaN unparsableRow) as (_ & N & T & _).
  pose proof (C4_unparsable_field_is_NaN pendingTopUpRow) as (_ & _ & _ & _ & _ & C).
  split; [|split].
  - apply N. vm_compute. reflexivity.
  - apply T; vm_compute; reflexivity.
  - apply C. vm_compute. reflexivity.
Defined.

(** C5.  A row whose type is exactly CASH TOP-UP is pushed as one
    record: ticker EUR, type BUY, quantity equal to the total amount,
    price 1.  The aggregator adds the amount of that record to
    [totalInjected] and changes nothing else: no ticker's statistics in
    the loop, and, wherever the record stands in the sequence, neither
    the positions nor any other total of the result. *)
Theorem C5_cash_top_up (row : gmap string string)
  (before after : list Transaction) :
  row !! "Type" = Some "CASH TOP-UP" ->
  rowRecords row
  = Normal [Trade "EUR" BUY (rowTotalAmount row) 1 (rowTotalAmount row)]
  /\ (forall v,
        step v (Trade "EUR" BUY (rowTotalAmount row) 1 (rowTotalAmount row))
        = mkLocals (tickerStats v) (injected v + rowTotalAmount row)
                   (sold v) (dividends v) (fees v) (objectPrototype v))
  /\ calculateAveragePrices
       (before ++ Trade "EUR" BUY (rowTotalAmount row) 1 (rowTotalAmount row) :: after)
     = mkAggregate
         (positions (calculateAveragePrices (before ++ after)))
         (sumFrom (sum (omap injectedAmount before) + rowTotalAmount row)
                  (omap injectedAmount after))
         (totalSold (calculateAveragePrices (before ++ after)))
         (totalDividends (calculateAveragePrices (before ++ after)))
         (totalFees (calculateAveragePrices (before ++ after))).
Proof.
  intros T. split; [|split].
  - now apply rowRecords_cash_top_up.
  - reflexivity.
  - apply cash_top_up_inserted.
Qed.

Lemma C5_witness :
  rowRecords topUpRow
  = Normal [Trade "EUR" BUY (rowTotalAmount topUpRow) 1 (rowTotalAmount topUpRow)]
  /\ (forall v,
        step v (Trade "EUR" BUY (rowTotalAmount topUpRow) 1 (rowTotalAmount topUpRow))
        = mkLocals (tickerStats v) (injected v + rowTotalAmount topUpRow)
                   (sold v) (dividends v) (fees v) (objectPrototype v))
  /\ calculateAveragePrices
       (keptAndSoldOut
        ++ Trade "EUR" BUY (rowTotalAmount topUpRow) 1 (rowTotalAmount topUpRow)
           :: ascending)
     = mkAggregate
         (positions (calculateAveragePrices (keptAndSoldOut ++ ascending)))
         (sumFrom (sum (omap injectedAmount keptAndSoldOut) + rowTotalAmount topUpRow)
                  (omap injectedAmount ascending))
         (totalSold (calculateAveragePrices (keptAndSoldOut ++ ascending)))
         (totalDividends (calculateAveragePrices (keptAndSoldOut ++ ascending)))
         (totalFees (calculateAveragePrices (keptAndSoldOut ++ ascending))).
Proof.
  apply (C5_cash_top_up topUpRow keptAndSoldOut ascending).
  vm_compute. reflexivity.
Defined.

(** C6.  Every ticker present in [positions] has a remaining quantity
    strictly above zero, and a ticker whose cumulative sold quantity
    equals or exceeds its cumulative bought quantity has no entry in
    [positions]. *)
Theorem C6_only_open_positions (transactions : list Transaction) (ticker : string) :
  (forall p, positions (calculateAveragePrices transactions) !! ticker = Some p ->
             (0 <? totalQuantity p) = true)
  /\ ((sum (boughtQuantities ticker transactions)
         <=? sum (soldQuantities ticker transactions)) = true ->
      positions (calculateAveragePrices transactions) !! ticker = None).
Proof.
  split.
  - intros p P. apply position_inv in P as [Q ->]. exact Q.
  - intros Le. apply position_none, sub_not_above_zero, Le.
Qed.

Lemma C6_witness :
  (0 <? totalQuantity (mkPosition 5 6)) = true
  /\ positions (calculateAveragePrices keptAndSoldOut) !! "B" = None.
Proof.
  split.
  - apply (proj1 (C6_only_open_positions keptAndSoldOut "A")).
    vm_compute. reflexivity.
  - apply (proj2 (C6_only_open_positions keptAndSoldOut "B")).
    vm_compute. reflexivity.
Defined.

(** C7, as stated, fails: binary64 addition is not associative, so the
    order in which one accumulator receives its terms shows in the last
    bit.  The same three buys and the same three top-ups, each group in
    the opposite order, give different totals and a different average
    price. *)
Lemma C7_counterexample :
  Permutation ascending descending
  /\ totalInjected (calculateAveragePrices ascending) = 0.6000000000000001
  /\ totalInjected (calculateAveragePrices descending) = 0.6
  /\ (0.6000000000000001 =? 0.6) = false
  /\ positions (calculateAveragePrices ascending) !! "A"
     = Some (mkPosition 4.999999999999999 0.6000000000000001)
  /\ positions (calculateAveragePrices descending) !! "A"
     = Some (mkPosition 5 0.6)
  /\ (4.999999999999999 =? 5) = false.
Proof.
  split.
  - unfold ascending, descending.
    eapply perm_trans; [apply Permutation_rev|]. cbn.
    exact (Permutation_app_comm [_; _; _] [_; _; _]).
  - repeat split; vm_compute; reflexivity.
Qed.

(** C7, amended.  The result depends only on what each accumulator is
    fed, in order: two record sequences that give [totalInjected],
    [totalSold], [totalDividends], [totalFees] and every ticker's bought
    and sold statistics the same terms in the same order produce the
    same positions and the same totals, however the records of different
    accumulators are interleaved. *)
Theorem C7_order_within_accumulators (l l' : list Transaction) :
  sameFeeds l l' ->
  calculateAveragePrices l = calculateAveragePrices l'.
Proof.
  intros (I & S & D & F & T).
  destruct (totals_closed l) as (I1 & S1 & D1 & F1).
  destruct (totals_closed l') as (I2 & S2 & D2 & F2).
  apply aggregate_eq; [| congruence..].
  apply map_eq. intros t. rewrite !positions_lookup.
  destruct (T t) as [-> ->]. reflexivity.
Qed.

Lemma C7_witness :
  calculateAveragePrices interleaved1 = calculateAveragePrices interleaved2.
Proof.
  apply (C7_order_within_accumulators interleaved1 interleaved2).
  unfold sameFeeds. repeat split; try reflexivity.
  all: cbn -[String.eqb].
  all: destruct (String.eqb_spec "A" ticker) as [<-|NA]; [reflexivity|].
  all: destruct (String.eqb_spec "B" ticker) as [<-|NB]; reflexivity.
Defined.

(** C8.  Past the checks on the configuration and the folder, with a
    statement that parses: when some ticker of the computed positions
    has no entry in the identifier map, the run ends by reporting the
    missing identifiers, with status 1 and no report.  The list
    reported names each ticker once and is complete: it holds every
    ticker of the positions that has no entry in the map, not only the
    first.  It holds nothing but tickers of the positions for which the
    map gives no identifier, that is no entry or an entry with the empty
    identifier; when no identifier of the map is empty, it is exactly
    the list of the tickers of the positions that have no entry. *)
Theorem C8_missing_identifiers_listed (w : World)
  (files : list (string * option string)) (name content : string)
  (transactions : list Transaction) :
  size (loadTickerToIsin (env w)) <> 0%nat ->
  documents w = Some files ->
  find (fun file => endsWith file.1 ".csv") files = Some (name, Some content) ->
  parseCSV content = Normal transactions ->
  (exists ticker,
     is_Some (positions (calculateAveragePrices transactions) !! ticker)
     /\ loadTickerToIsin (env w) !! ticker = None) ->
  exists missing,
    main w = MissingIsinMappings missing
    /\ exitStatus (main w) = 1%nat
    /\ NoDup missing
    /\ (forall ticker,
          is_Some (positions (calculateAveragePrices transactions) !! ticker) ->
          loadTickerToIsin (env w) !! ticker = None ->
          ticker ∈ missing)
    /\ (forall ticker,
          ticker ∈ missing
          <-> is_Some (positions (calculateAveragePrices transactions) !! ticker)
              /\ (loadTickerToIsin (env w) !! ticker = None
                  \/ loadTickerToIsin (env w) !! ticker = Some ""))
    /\ ((forall ticker, loadTickerToIsin (env w) !! ticker <> Some "") ->
        forall ticker,
          ticker ∈ missing
          <-> is_Some (positions (calculateAveragePrices transactions) !! ticker)
              /\ loadTickerToIsin (env w) !! ticker = None).
Proof.
  intros M D F P (ticker & Pos & Gap).
  rewrite (main_reports w files name content transactions M D F P).
  assert (In : forall t,
             t ∈ missingTickers (loadTickerToIsin (env w))
                   (positions (calculateAveragePrices transactions))
             <-> is_Some (positions (calculateAveragePrices transactions) !! t)
                 /\ (loadTickerToIsin (env w) !! t = None
                     \/ loadTickerToIsin (env w) !! t = Some "")).
  { intros t. now rewrite elem_of_missingTickers, lacksIsin_lookup. }
  pose proof (NoDup_missingTickers (loadTickerToIsin (env w))
                (positions (calculateAveragePrices transactions))) as N.
  unfold report.
  destruct (missingTickers _ _) as [|t ts] eqn:E.
  - exfalso. apply (elem_of_nil ticker). apply In. auto.
  - exists (t :: ts). split; [reflexivity|]. split; [reflexivity|].
    split; [exact N|]. split; [|split; [exact In|]].
    + intros ticker' Pos' Gap'. apply In. auto.
    + intros Full ticker'. rewrite In. specialize (Full ticker'). tauto.
Qed.

Lemma C8_witness :
  exists missing,
    main gapWorld = MissingIsinMappings missing
    /\ exitStatus (main gapWorld) = 1%nat
    /\ NoDup missing
    /\ (forall ticker,
          is_Some (positions (calculateAveragePrices gapTransactions) !! ticker) ->
          loadTickerToIsin (env gapWorld) !! ticker = None ->
          ticker ∈ missing)
    /\ (forall ticker,
          ticker ∈ missing
          <-> is_Some (positions (calculateAveragePrices gapTransactions) !! ticker)
              /\ (loadTickerToIsin (env gapWorld) !! ticker = None
                  \/ loadTickerToIsin (env gapWorld) !! ticker = Some ""))
    /\ ((forall ticker, loadTickerToIsin (env gapWorld) !! ticker <> Some "") ->
        forall ticker,
          ticker ∈ missing
          <-> is_Some (positions (calculateAveragePrices gapTransactions) !! ticker)
              /\ loadTickerToIsin (env gapWorld) !! ticker = None).
Proof.
  eapply (C8_missing_identifiers_listed gapWorld _ "transactions.csv" _ gapTransactions).
  - vm_compute. discriminate.
  - reflexivity.
  - vm_compute. reflexivity.
  - vm_compute. reflexivity.
  - exists "BBB". split; vm_compute; eauto.
Defined.

(** C9, as stated, fails: only the fees are summed in absolute value.
    A top-up, a sale and a dividend with amounts below zero give an
    injected total, a sold total and a dividend total below zero. *)
Lemma C9_counterexample :
  calculateAveragePrices negativeAmounts = mkAggregate ∅ (-100) (-5) (-1) 0
  /\ (totalInjected (calculateAveragePrices negativeAmounts) <? 0) = true
  /\ (totalSold (calculateAveragePrices negativeAmounts) <? 0) = true
  /\ (totalDividends (calculateAveragePrices negativeAmounts) <? 0) = true.
Proof. repeat split; vm_compute; reflexivity. Qed.

(** C9, amended.  [totalFees] is the sum of the absolute values of the
    amounts of the Fee records, whatever their signs: it is never below
    zero, and it is at least zero when no fee amount is NaN.  The three
    other totals are sums of signed amounts: each is at least zero when
    every amount it sums is. *)
Theorem C9_fees_are_absolute (transactions : list Transaction) :
  totalFees (calculateAveragePrices transactions)
  = sum (abs <$> omap feeAmount transactions)
  /\ (totalFees (calculateAveragePrices transactions) <? 0) = false
  /\ (Forall (fun x => (x =? x) = true) (omap feeAmount transactions) ->
      (0 <=? totalFees (calculateAveragePrices transactions)) = true)
  /\ (Forall (fun x => (0 <=? x) = true) (omap injectedAmount transactions) ->
      (0 <=? totalInjected (calculateAveragePrices transactions)) = true)
  /\ (Forall (fun x => (0 <=? x) = true) (omap soldAmount transactions) ->
      (0 <=? totalSold (calculateAveragePrices transactions)) = true)
  /\ (Forall (fun x => (0 <=? x) = true) (omap dividendAmount transactions) ->
      (0 <=? totalDividends (calculateAveragePrices transactions)) = true).
Proof.
  destruct (totals_closed transactions) as (I & S & D & F).
  rewrite I, S, D, F. repeat split.
  - apply sum_abs_not_below_zero.
  - intros H. apply sumFrom_at_least_zero; [reflexivity|].
    apply Forall_fmap. eapply Forall_impl; [exact H|].
    intros x. apply abs_at_least_zero.
  - intros H. apply sumFrom_at_least_zero; [reflexivity | exact H].
  - intros H. apply sumFrom_at_least_zero; [reflexivity | exact H].
  - intros H. apply sumFrom_at_least_zero; [reflexivity | exact H].
Qed.

Lemma C9_witness :
  (0 <=? totalFees (calculateAveragePrices interleaved1)) = true
  /\ (0 <=? totalInjected (calculateAveragePrices interleaved1)) = true
  /\ (0 <=? totalSold (calculateAveragePrices interleaved1)) = true
  /\ (0 <=? totalDividends (calculateAveragePrices interleaved1)) = true.
Proof.
  pose proof (C9_fees_are_absolute interleaved1) as (_ & _ & F & I & S & D).
  split; [apply F | split; [apply I | split; [apply S | apply D]]];
    repeat constructor.
Defined.

(** C10, as stated, fails in its last clause: a SELL record of the
    ticker EUR is not a cash top-up, and with a negative quantity it
    leaves a remaining quantity above zero.  After a buy and such a sale
    of EUR, [positions] holds an entry for EUR; the buy went to
    [totalInjected]. *)
Lemma C10_counterexample :
  calculateAveragePrices eurTrades
  = mkAggregate {[ "EUR" := mkPosition nan 1 ]} 50 (-5) 0 0.
Proof. vm_compute. reflexivity. Qed.

(** C10, amended.  A BUY row whose ticker is EUR is pushed as a BUY
    record of EUR, like a cash top-up.  Every BUY record of EUR adds its
    amount to [totalInjected] and changes nothing else: no ticker's
    statistics, no position and no other total, wherever it stands in
    the sequence.  So the Buy records of an asset whose ticker is EUR
    never produce a position: [positions] has no entry for EUR unless a
    SELL record of EUR carries a negative quantity. *)
Theorem C10_EUR_buys_are_top_ups (row : gmap string string)
  (before after transactions : list Transaction)
  (quantity price amount : float) :
  (forall cell,
     nonEmpty (row !! "Ticker") = Some "EUR" ->
     includes (rowType row) "BUY" = true ->
     row !! "Price per share" = Some cell ->
     rowRecords row
     = Normal [Trade "EUR" BUY (parseFloatCell (row !! "Quantity"))
                     (parseFloat (stripCurrency cell)) (rowTotalAmount row)])
  /\ (forall v,
        step v (Trade "EUR" BUY quantity price amount)
        = mkLocals (tickerStats v) (injected v + amount)
                   (sold v) (dividends v) (fees v) (objectPrototype v))
  /\ calculateAveragePrices (before ++ Trade "EUR" BUY quantity price amount :: after)
     = mkAggregate
         (positions (calculateAveragePrices (before ++ after)))
         (sumFrom (sum (omap injectedAmount before) + amount)
                  (omap injectedAmount after))
         (totalSold (calculateAveragePrices (before ++ after)))
         (totalDividends (calculateAveragePrices (before ++ after)))
         (totalFees (calculateAveragePrices (before ++ after)))
  /\ (Forall (fun q => (q <? 0) = false) (soldQuantities "EUR" transactions) ->
      positions (calculateAveragePrices transactions) !! "EUR" = None).
Proof.
  repeat split.
  - intros cell T K P.
    rewrite (rowRecords_trade row "EUR" cell T) by (rewrite ?K; auto).
    now rewrite K.
  - apply cash_top_up_inserted.
  - intros S. apply zero_bought_omitted; [|exact S].
    unfold boughtQuantities. now rewrite boughtBy_EUR.
Qed.

Lemma C10_witness :
  rowRecords eurBuyRow
  = Normal [Trade "EUR" BUY (parseFloatCell (eurBuyRow !! "Quantity"))
                  (parseFloat (stripCurrency "€5")) (rowTotalAmount eurBuyRow)]
  /\ positions
       (calculateAveragePrices
          [Trade "EUR" BUY 10 5 50; Trade "EUR" SELL 4 6 24]) !! "EUR" = None.
Proof.
  pose proof (C10_EUR_buys_are_top_ups eurBuyRow [] []
                [Trade "EUR" BUY 10 5 50; Trade "EUR" SELL 4 6 24] 10 5 50)
    as (R & _ & _ & N).
  split.
  - apply R; vm_compute; reflexivity.
  - apply N. repeat constructor.
Defined.

(* ================================================================== *)
(** * Sums of quantities above zero                                    *)
(* ================================================================== *)

#[local] Open Scope Z_scope.

Section SpecFloatPositive.
Variables prec emax : Z.
Hypothesis prec_positive : 0 < prec.

(** Shifting right by fewer bits than the mantissa has leaves a
    mantissa above zero. *)
Lemma shr_1_lower mrs k :
  0 <= k -> 2 ^ (k + 1) <= shr_m mrs -> 2 ^ k <= shr_m (shr_1 mrs).
Proof.
  intros Hk. rewrite Z.pow_add_r, Z.pow_1_r by lia.
  assert (0 < 2 ^ k) by (apply Z.pow_pos_nonneg; lia).
  destruct mrs as [[|[p|p|]|p] r s]; cbn [shr_m shr_1]; lia.
Qed.

Lemma iter_shr_1_lower n mrs k :
  0 <= k -> 2 ^ (k + Z.pos n) <= shr_m mrs ->
  2 ^ k <= shr_m (SpecFloat.iter_pos shr_1 n mrs).
Proof.
  revert mrs k. induction n as [n IH|n IH|]; intros mrs k Hk H;
    cbn [SpecFloat.iter_pos].
  - apply IH; [lia|]. apply IH; [lia|]. apply shr_1_lower; [lia|].
    replace (k + Z.pos n + Z.pos n + 1) with (k + Z.pos n~1) by lia. exact H.
  - apply IH; [lia|]. apply IH; [lia|].
    replace (k + Z.pos n + Z.pos n) with (k + Z.pos n~0) by lia. exact H.
  - apply shr_1_lower; assumption.
Qed.

Lemma shr_fexp_positive m e l :
  0 < m -> SpecFloat.emin prec emax <= e ->
  0 < shr_m (fst (shr_fexp prec emax m e l))
  /\ SpecFloat.emin prec emax <= snd (shr_fexp prec emax m e l).
Proof.
  intros Hm He. unfold shr_fexp, shr.
  assert (M : shr_m (shr_record_of_loc m l) = m) by (destruct l as [|[]]; reflexivity).
  destruct m as [|p|p]; try lia. cbn [Zdigits2].
  pose proof (digits2_pos_bounds p) as [Lo _].
  unfold fexp.
  destruct (Z.max (Z.pos (digits2_pos p) + e - prec) (SpecFloat.emin prec emax) - e)
    as [|n|n] eqn:N; cbn [fst snd]; try (rewrite M; lia).
  split; [|lia].
  apply Z.lt_le_trans with (2 ^ 0); [reflexivity|].
  apply iter_shr_1_lower; [lia|]. rewrite M.
  eapply Z.le_trans; [|exact Lo]. apply Z.pow_le_mono_r; lia.
Qed.

Lemma round_nearest_even_ge m l : m <= round_nearest_even m l.
Proof. destruct l as [|[]]; cbn; try lia. destruct (Z.even m); lia. Qed.

Lemma binary_round_aux_above_zero mx ex lx :
  0 < mx -> SpecFloat.emin prec emax <= ex ->
  SFltb (S754_zero false) (binary_round_aux prec emax false mx ex lx) = true.
Proof.
  intros Hm He. unfold binary_round_aux.
  destruct (shr_fexp_positive mx ex lx Hm He) as [M1 E1].
  destruct (shr_fexp prec emax mx ex lx) as [mrs' e']. cbn [fst snd] in M1, E1.
  pose proof (round_nearest_even_ge (shr_m mrs') (loc_of_shr_record mrs')) as R.
  destruct (shr_fexp_positive (round_nearest_even (shr_m mrs') (loc_of_shr_record mrs'))
              e' loc_Exact ltac:(lia) E1) as [M2 _].
  destruct (shr_fexp prec emax _ e' loc_Exact) as [mrs'' e'']. cbn [fst] in M2.
  destruct (shr_m mrs''); try lia.
  destruct (e'' <=? emax - prec); reflexivity.
Qed.

Lemma binary_round_above_zero mx ex :
  SpecFloat.emin prec emax <= ex ->
  SFltb (S754_zero false) (binary_round prec emax false mx ex) = true.
Proof.
  intros He. unfold binary_round, shl_align.
  assert (F : SpecFloat.emin prec emax <= fexp prec emax (Z.pos (digits2_pos mx) + ex))
    by (unfold fexp; lia).
  destruct (fexp prec emax (Z.pos (digits2_pos mx) + ex) - ex) eqn:D;
    apply binary_round_aux_above_zero; lia.
Qed.

(** A number at least zero plus a number above zero is above zero. *)
Lemma SFadd_above_zero x y :
  SpecFloat.valid_binary prec emax x = true ->
  SpecFloat.valid_binary prec emax y = true ->
  at_least_zero x = true -> SFltb (S754_zero false) y = true ->
  SFltb (S754_zero false) (SFadd prec emax x y) = true.
Proof.
  intros Vx Vy Hx Hy. by_class_and_sign x y.
  cbn [SpecFloat.valid_binary] in Vx, Vy. unfold bounded in Vx, Vy.
  apply andb_prop in Vx as [Cx _]. apply andb_prop in Vy as [Cy _].
  apply canonical_digits_le in Cx as [_ Ex]. apply canonical_digits_le in Cy as [_ Ey].
  unfold SFadd, binary_normalize. cbn [cond_Zopp]. rewrite <- Pos2Z.inj_add.
  apply binary_round_above_zero. lia.
Qed.

End SpecFloatPositive.

#[local] Close Scope Z_scope.

Lemma above_zero_at_least (x : float) : (0 <? x) = true -> (0 <=? x) = true.
Proof.
  rewrite ltb_spec, leb_spec, Prim2SF_zero.
  destruct (Prim2SF x) as [[]|[]| |[] m e]; try discriminate; reflexivity.
Qed.

Lemma add_above_zero (x y : float) :
  (0 <=? x) = true -> (0 <? y) = true -> (0 <? x + y) = true.
Proof.
  rewrite leb_spec, !ltb_spec, add_spec, Prim2SF_zero. intros Hx Hy.
  apply (SFadd_above_zero prec emax); auto using Prim2SF_valid. reflexivity.
Qed.

Lemma sumFrom_above_zero (terms : list float) (start : float) :
  (0 <=? start) = true -> terms <> [] ->
  Forall (fun x => (0 <? x) = true) terms ->
  (0 <? sumFrom start terms) = true.
Proof.
  intros Hs Hne Ht. revert start Hs Hne.
  induction Ht as [|x terms Hx Ht IH]; intros start Hs Hne; [congruence|].
  cbn. pose proof (add_above_zero start x Hs Hx) as P.
  destruct terms as [|x' terms]; [exact P|].
  apply IH; [now apply above_zero_at_least | discriminate].
Qed.

(* ================================================================== *)
(** * Further properties of the aggregator                             *)
(* ================================================================== *)

Lemma sub_zero (x : float) : x - 0 = x.
Proof.
  apply Prim2SF_inj. rewrite sub_spec, Prim2SF_zero.
  destruct (Prim2SF x) as [[]|[]| |[] m e]; reflexivity.
Qed.

Lemma omap_filter_keeps {A B} (f : A -> option B) (P : A -> bool) (l : list A) :
  (forall x, is_Some (f x) -> P x = true) ->
  omap f (filter (fun x => P x = true) l) = omap f l.
Proof.
  intros H. induction l as [|x l IH]; [reflexivity|].
  rewrite filter_cons. destruct (decide (P x = true)) as [Px|Px].
  - cbn. now rewrite IH.
  - cbn. rewrite IH. destruct (f x) eqn:E; [|reflexivity].
    exfalso. apply Px, H. rewrite E. eauto.
Qed.

Lemma omap_fmap_same {A B} (f : A -> option B) (g : A -> A) (l : list A) :
  (forall x, f (g x) = f x) -> omap f (g <$> l) = omap f l.
Proof.
  intros H. induction l as [|x l IH]; [reflexivity|].
  cbn. now rewrite H, IH.
Qed.

Lemma omap_exists {A B} (f : A -> option B) (l : list A) :
  omap f l <> [] -> exists x y, x ∈ l /\ f x = Some y.
Proof.
  induction l as [|x l IH]; [now intros []|].
  cbn. destruct (f x) as [y|] eqn:E.
  - intros _. exists x, y. split; [left | exact E].
  - intros H. destruct (IH H) as (x' & y & I & F).
    exists x', y. split; [now right | exact F].
Qed.

(** X1.  The position of a ticker depends on the trades of that ticker
    only: the records of other tickers, the dividends (whatever ticker
    they name), the fees and the cash top-ups can all be removed without
    changing it. *)
Theorem X1_position_is_local (transactions : list Transaction) (ticker : string) :
  positions (calculateAveragePrices transactions) !! ticker
  = positions
      (calculateAveragePrices
         (filter (fun transaction => tradeOf ticker transaction = true) transactions))
    !! ticker.
Proof.
  rewrite !positions_lookup, !omap_filter_keeps; [reflexivity | |].
  - intros [t [] q pr a| |] [y Y]; try discriminate Y. cbn in *.
    now destruct (String.eqb t ticker).
  - intros [t [] q pr a| |] [y Y]; try discriminate Y. cbn in *.
    destruct (String.eqb t "EUR"); [discriminate|].
    now destruct (String.eqb t ticker).
Qed.

(** X2.  The aggregator never reads the price per share of a trade nor
    the ticker of a dividend: blanking both in every record leaves the
    positions and the four totals unchanged. *)
Theorem X2_price_per_share_is_unused (transactions : list Transaction) :
  calculateAveragePrices (readFields <$> transactions)
  = calculateAveragePrices transactions.
Proof.
  destruct (totals_closed (readFields <$> transactions)) as (I1 & S1 & D1 & F1).
  destruct (totals_closed transactions) as (I2 & S2 & D2 & F2).
  assert (Same : forall {B} (f : Transaction -> option B),
             (forall x, f (readFields x) = f x) ->
             omap f (readFields <$> transactions) = omap f transactions)
    by (intros B f H; now apply omap_fmap_same).
  apply aggregate_eq.
  - apply map_eq. intros t. rewrite !positions_lookup.
    rewrite !Same; [reflexivity | |]; now intros [? [] ? ? ?| |].
  - rewrite I1, I2, Same; [reflexivity|]. now intros [? [] ? ? ?| |].
  - rewrite S1, S2, Same; [reflexivity|]. now intros [? [] ? ? ?| |].
  - rewrite D1, D2, Same; [reflexivity|]. now intros [? [] ? ? ?| |].
  - rewrite F1, F2, Same; [reflexivity|]. now intros [? [] ? ? ?| |].
Qed.

Lemma never_sold_lookup (l : list Transaction) (t : string) :
  soldQuantities t l = [] ->
  positions (calculateAveragePrices l) !! t
  = if inherited t || String.eqb t "EUR" then None
    else if 0 <? sum (buysOf t l).*1
    then Some (mkPosition (sum (buysOf t l).*2 / sum (buysOf t l).*1)
                          (sum (buysOf t l).*1))
    else None.
Proof.
  unfold soldQuantities. intros S.
  rewrite positions_lookup, S. destruct (inherited t); [reflexivity|].
  destruct (String.eqb_spec t "EUR") as [->|NE]; cbn [orb].
  - now rewrite boughtBy_EUR.
  - rewrite (boughtBy_buysOf t l NE). unfold statsFrom.
    destruct (buysOf t l) as [|b bs]; [reflexivity|].
    cbn -[sumFrom]. unfold positionOf. cbn -[sumFrom].
    change (sumFrom 0 []) with 0. rewrite sub_zero. reflexivity.
Qed.

(** X3.  A ticker with no Sell record is reported exactly when it is
    neither EUR nor a name inherited from [Object.prototype] and the sum
    of the quantities of its Buy records is above zero; its total
    quantity is then that sum, and its average price the sum of the
    amounts of its Buy records divided by it. *)
Theorem X3_never_sold (transactions : list Transaction) (ticker : string) :
  soldQuantities ticker transactions = [] ->
  positions (calculateAveragePrices transactions) !! ticker
  = if inherited ticker || String.eqb ticker "EUR" then None
    else if 0 <? sum (buysOf ticker transactions).*1
    then Some (mkPosition (sum (buysOf ticker transactions).*2
                           / sum (buysOf ticker transactions).*1)
                          (sum (buysOf ticker transactions).*1))
    else None.
Proof. apply never_sold_lookup. Qed.

Lemma X3_witness :
  positions (calculateAveragePrices ascending) !! "A"
  = Some (mkPosition 4.999999999999999 0.6000000000000001)
  /\ positions (calculateAveragePrices [Trade "constructor" BUY 10 5 50])
       !! "constructor" = None
  /\ positions (calculateAveragePrices [Trade "EUR" BUY 10 5 50]) !! "EUR" = None.
Proof.
  split; [|split].
  - rewrite (X3_never_sold ascending "A"); [|reflexivity].
    vm_compute. reflexivity.
  - rewrite (X3_never_sold [Trade "constructor" BUY 10 5 50] "constructor");
      reflexivity.
  - rewrite (X3_never_sold [Trade "EUR" BUY 10 5 50] "EUR"); reflexivity.
Defined.

(** X4.  A ticker is reported only if some record trades it: a ticker
    that appears in dividends only, or not at all, has no position. *)
Theorem X4_position_needs_a_trade (transactions : list Transaction)
  (ticker : string) (p : Position) :
  positions (calculateAveragePrices transactions) !! ticker = Some p ->
  exists type quantity price amount,
    Trade ticker type quantity price amount ∈ transactions.
Proof.
  rewrite positions_lookup. destruct (inherited ticker); [discriminate|].
  unfold statsFrom.
  destruct (omap (boughtBy ticker) transactions) as [|b bs] eqn:B;
    [destruct (omap (soldBy ticker) transactions) as [|s ss] eqn:S;
     [discriminate|] |]; intros _.
  - destruct (omap_exists (soldBy ticker) transactions) as (x & y & I & F);
      [now rewrite S|].
    destruct x as [t [] q pr a| |]; try discriminate F. cbn in F.
    destruct (String.eqb_spec t ticker) as [->|]; [|discriminate]. eauto.
  - destruct (omap_exists (boughtBy ticker) transactions) as (x & y & I & F);
      [now rewrite B|].
    destruct x as [t [] q pr a| |]; try discriminate F. cbn in F.
    destruct (String.eqb t "EUR"); [discriminate|].
    destruct (String.eqb_spec t ticker) as [->|]; [|discriminate]. eauto.
Qed.

Lemma X4_witness :
  exists type quantity price amount,
    Trade "A" type quantity price amount ∈ keptAndSoldOut.
Proof.
  apply (X4_position_needs_a_trade keptAndSoldOut "A" (mkPosition 5 6)).
  vm_compute. reflexivity.
Defined.

(** X5.  A ticker, other than EUR and the names inherited from
    [Object.prototype], that has Buy records, each with a quantity above
    zero, and no Sell record is always reported, with the sum of the
    bought quantities as its total quantity. *)
Theorem X5_held_ticker_is_reported (transactions : list Transaction)
  (ticker : string) :
  inherited ticker = false ->
  ticker <> "EUR" ->
  soldQuantities ticker transactions = [] ->
  buysOf ticker transactions <> [] ->
  Forall (fun q => (0 <? q) = true) (buysOf ticker transactions).*1 ->
  exists p,
    positions (calculateAveragePrices transactions) !! ticker = Some p
    /\ totalQuantity p = sum (buysOf ticker transactions).*1
    /\ (0 <? totalQuantity p) = true.
Proof.
  intros I NE S B Q. rewrite (never_sold_lookup _ _ S), I.
  apply String.eqb_neq in NE. rewrite NE. cbn [orb].
  assert (P : (0 <? sum (buysOf ticker transactions).*1) = true).
  { apply sumFrom_above_zero; [reflexivity | | exact Q].
    destruct (buysOf ticker transactions); [now destruct B | discriminate]. }
  rewrite P. eexists. split; [reflexivity|]. split; [reflexivity | exact P].
Qed.

Lemma X5_witness :
  exists p,
    positions (calculateAveragePrices ascending) !! "A" = Some p
    /\ totalQuantity p = sum (buysOf "A" ascending).*1
    /\ (0 <? totalQuantity p) = true.
Proof.
  apply (X5_held_ticker_is_reported ascending "A").
  - reflexivity.
  - discriminate.
  - reflexivity.
  - discriminate.
  - repeat constructor.
Defined.

(** X23.  A ticker named like a property that every object inherits
    from [Object.prototype] ([constructor], [toString], [__proto__],
    ...) is skipped: whatever the records, the loop creates no
    statistics under that name and no position is written for it. *)
Theorem X23_inherited_names_are_skipped (transactions : list Transaction)
  (ticker : string) :
  inherited ticker = true ->
  tickerStats (fold_left step transactions initialLocals) !! ticker = None
  /\ positions (calculateAveragePrices transactions) !! ticker = None.
Proof.
  intros I. split.
  - rewrite loop_tickerStats. cbn [initialLocals tickerStats].
    rewrite lookup_empty. unfold statsAfter. now rewrite I.
  - rewrite positions_lookup. now rewrite I.
Qed.

Lemma X23_witness :
  tickerStats (fold_left step [Trade "constructor" BUY 10 5 50] initialLocals)
    !! "constructor" = None
  /\ positions (calculateAveragePrices [Trade "constructor" BUY 10 5 50])
       !! "constructor" = None.
Proof.
  apply (X23_inherited_names_are_skipped [Trade "constructor" BUY 10 5 50]).
  reflexivity.
Defined.

(** X24.  The aggregation adds a property to [Object.prototype] exactly
    when a record trades the ticker [__proto__]: a BUY record adds
    [boughtQuantity] and [totalBoughtAmount], a SELL record adds
    [soldQuantity], and nothing else is ever added. *)
Theorem X24_what_reaches_the_prototype (transactions : list Transaction)
  (name : string) :
  name ∈ prototypeAfter transactions
  <-> exists type quantity price amount,
        Trade "__proto__" type quantity price amount ∈ transactions
        /\ name ∈ writtenBy type.
Proof.
  rewrite prototypeAfter_writes, elem_of_union_list. split.
  - intros (X & [transaction [-> I]]%list_elem_of_fmap & N).
    destruct transaction as [ticker type quantity price amount | |];
      cbn -[String.eqb] in N; try (now apply elem_of_empty in N).
    destruct (String.eqb_spec ticker "__proto__") as [->|];
      [|now apply elem_of_empty in N].
    exists type, quantity, price, amount. split; [exact I|].
    destruct type; cbn; set_unfold; tauto.
  - intros (type & quantity & price & amount & I & N).
    exists (prototypeWrites (Trade "__proto__" type quantity price amount)).
    split; [apply list_elem_of_fmap; eauto|].
    destruct type; cbn in *; set_unfold; tauto.
Qed.

(* ================================================================== *)
(** * The present version against the previous one                     *)
(* ================================================================== *)

Lemma legacyStatsFrom_app before bought1 bought2 :
  legacyStatsFrom (legacyStatsFrom before bought1) bought2
  = legacyStatsFrom before (bought1 ++ bought2).
Proof.
  destruct bought1, bought2; cbn; rewrite ?app_nil_r, ?fmap_app;
    unfold sumFrom; cbn; rewrite ?fold_left_app; reflexivity.
Qed.

Lemma legacyStatsAfter_app before t l1 l2 :
  legacyStatsAfter (legacyStatsAfter before t l1) t l2
  = legacyStatsAfter before t (l1 ++ l2).
Proof.
  unfold legacyStatsAfter. rewrite !omap_app.
  pose proof (legacyStatsFrom_app before (omap (legacyBoughtBy t) l1)
                (omap (legacyBoughtBy t) l2)) as A.
  destruct before as [s|].
  - destruct (legacyStatsFrom (Some s) (omap (legacyBoughtBy t) l1)) eqn:E;
      [exact A|].
    destruct (omap (legacyBoughtBy t) l1); discriminate E.
  - destruct (inherited t); [reflexivity|].
    destruct (legacyStatsFrom None (omap (legacyBoughtBy t) l1)); exact A.
Qed.

Lemma legacy_step_lookup (v : Legacy.Locals)
  (transaction : Legacy.Transaction) (t : string) :
  Legacy.tickerStats (Legacy.step v transaction) !! t
  = legacyStatsAfter (Legacy.tickerStats v !! t) t [transaction].
Proof.
  unfold Legacy.step, legacyStatsAfter, legacyBoughtBy. cbn.
  destruct (String.eqb_spec (Legacy.ticker transaction) t) as [<-|NE]; cbn.
  - rewrite lookup_alter_eq.
    destruct (Legacy.tickerStats v !! Legacy.ticker transaction) as [s|] eqn:L.
    + now rewrite L.
    + destruct (inherited (Legacy.ticker transaction));
        [now rewrite L | now rewrite lookup_insert_eq].
  - rewrite lookup_alter_ne by exact NE.
    destruct (Legacy.tickerStats v !! Legacy.ticker transaction).
    + destruct (Legacy.tickerStats v !! t); [|destruct (inherited t)]; reflexivity.
    + destruct (inherited (Legacy.ticker transaction));
        rewrite ?lookup_insert_ne by exact NE;
        (destruct (Legacy.tickerStats v !! t); [|destruct (inherited t)]);
        reflexivity.
Qed.

Lemma legacy_loop_lookup (l : list Legacy.Transaction)
  (v : Legacy.Locals) (t : string) :
  Legacy.tickerStats (fold_left Legacy.step l v) !! t
  = legacyStatsAfter (Legacy.tickerStats v !! t) t l.
Proof.
  revert v. induction l as [|transaction l IH]; intros v.
  - unfold legacyStatsAfter. cbn.
    destruct (Legacy.tickerStats v !! t); [|destruct (inherited t)]; reflexivity.
  - cbn [fold_left]. rewrite IH, legacy_step_lookup.
    apply (legacyStatsAfter_app _ t [transaction] l).
Qed.

Lemma legacy_trades_feed (l : list Legacy.Transaction) (t : string) :
  Forall (fun transaction => Legacy.ticker transaction <> "EUR") l ->
  omap (boughtBy t) (legacyToTrade <$> l) = omap (legacyBoughtBy t) l
  /\ omap (soldBy t) (legacyToTrade <$> l) = []
  /\ omap injectedAmount (legacyToTrade <$> l) = []
  /\ omap soldAmount (legacyToTrade <$> l) = []
  /\ omap dividendAmount (legacyToTrade <$> l) = []
  /\ omap feeAmount (legacyToTrade <$> l) = [].
Proof.
  induction 1 as [|transaction l NE _ (B & S & I & So & D & F)]; [repeat split|].
  rewrite fmap_cons. cbn -[String.eqb]. rewrite B, S, I, So, D, F.
  unfold legacyBoughtBy.
  destruct (String.eqb_spec (Legacy.ticker transaction) "EUR") as [E|_];
    [contradiction|].
  repeat split.
Qed.

(** X6.  On the purchases the previous version handled (BUY records, no
    ticker named EUR), the present aggregator reports what the previous
    one reported, less the tickers whose total quantity is not above
    zero, and its four totals are zero. *)
Theorem X6_refines_previous_version (purchases : list Legacy.Transaction) :
  Forall (fun transaction => Legacy.ticker transaction <> "EUR") purchases ->
  calculateAveragePrices (legacyToTrade <$> purchases)
  = mkAggregate (omap keepOpen (Legacy.calculateAveragePrices purchases)) 0 0 0 0.
Proof.
  intros NE.
  destruct (totals_closed (legacyToTrade <$> purchases)) as (I & S & D & F).
  apply aggregate_eq; cbn [positions totalInjected totalSold totalDividends totalFees].
  - apply map_eq. intros t.
    destruct (legacy_trades_feed purchases t NE) as (B & So & _).
    rewrite positions_lookup, B, So.
    unfold Legacy.calculateAveragePrices.
    rewrite lookup_omap, lookup_union, lookup_fmap, legacy_loop_lookup.
    rewrite lookup_gset_to_gmap. cbn [Legacy.tickerStats].
    rewrite lookup_empty. unfold legacyStatsAfter.
    destruct (inherited t).
    + cbn. destruct (guard _); reflexivity.
    + unfold legacyStatsFrom, statsFrom.
      destruct (omap (legacyBoughtBy t) purchases) as [|b bs].
      * cbn. destruct (guard _); reflexivity.
      * cbn -[sumFrom]. unfold positionOf, keepOpen. cbn -[sumFrom guard].
        change (sumFrom 0 []) with 0. rewrite sub_zero.
        destruct (guard _); reflexivity.
  - rewrite I. now destruct (legacy_trades_feed purchases "" NE) as (_ & _ & -> & _).
  - rewrite S. now destruct (legacy_trades_feed purchases "" NE) as (_ & _ & _ & -> & _).
  - rewrite D. now destruct (legacy_trades_feed purchases "" NE) as (_ & _ & _ & _ & -> & _).
  - rewrite F. now destruct (legacy_trades_feed purchases "" NE) as (_ & _ & _ & _ & _ & ->).
Qed.

Lemma X6_witness :
  calculateAveragePrices
    (legacyToTrade <$> [Legacy.mkTransaction "A" 10 5 50;
                        Legacy.mkTransaction "B" 0 2 0;
                        Legacy.mkTransaction "A" 2 4 8])
  = mkAggregate
      (omap keepOpen
         (Legacy.calculateAveragePrices
            [Legacy.mkTransaction "A" 10 5 50; Legacy.mkTransaction "B" 0 2 0;
             Legacy.mkTransaction "A" 2 4 8])) 0 0 0 0.
Proof.
  apply X6_refines_previous_version. repeat constructor; discriminate.
Defined.

Lemma nonEmpty_orElse (cell : option string) (s d : string) :
  nonEmpty cell = Some s -> orElse cell d = s.
Proof. destruct cell as [[|c r]|]; cbn; congruence. Qed.

(** X7.  Row by row, the present extractor pushes what the previous one
    pushed: a row for which the previous version pushed a purchase, and
    whose total-amount cell is not empty, is pushed as the same purchase
    with the type BUY. *)
Theorem X7_extracts_previous_purchases (row : gmap string string)
  (purchase : Legacy.Transaction) (total : string) :
  Legacy.rowRecords row = Normal [purchase] ->
  nonEmpty (row !! "Total Amount") = Some total ->
  rowRecords row = Normal [legacyToTrade purchase].
Proof.
  unfold Legacy.rowRecords. intros L T.
  destruct (nonEmpty (row !! "Ticker")) as [t|] eqn:Tk; [|discriminate].
  destruct (nonEmpty (row !! "Type")) as [type|] eqn:Ty; [|discriminate].
  destruct (includes type "BUY") eqn:B; [|discriminate].
  destruct (row !! "Price per share") as [price|] eqn:P; [|discriminate].
  destruct (row !! "Total Amount") as [cell|] eqn:C; [|discriminate].
  injection L as <-.
  assert (RT : rowType row = type) by (now apply nonEmpty_orElse).
  rewrite (rowRecords_trade row t price Tk) by (rewrite ?RT, ?B; auto).
  rewrite RT, B. unfold legacyToTrade, rowTotalAmount. cbn.
  rewrite C, (nonEmpty_orElse _ _ "0" T).
  cbn in T. destruct cell; [discriminate|]. now injection T as <-.
Qed.

Lemma X7_witness :
  rowRecords eurBuyRow
  = Normal [legacyToTrade (Legacy.mkTransaction "EUR" 10 5 50)].
Proof.
  apply (X7_extracts_previous_purchases eurBuyRow _ "€50"); vm_compute; reflexivity.
Defined.

(* ================================================================== *)
(** * Further properties of the record extractor                       *)
(* ================================================================== *)

(** A closed decidable statement, by evaluation of its decision. *)
Ltac by_decision :=
  match goal with |- ?P => apply (bool_decide_unpack P); vm_compute; exact I end.

Lemma assign_other (c column : string) (value : option string)
  (row : gmap string string) :
  c <> column -> assign column value row !! c = row !! c.
Proof.
  intros NE. unfold assign. destruct (String.eqb column "__proto__"); [reflexivity|].
  destruct value; [now rewrite lookup_insert_ne | now rewrite lookup_delete_ne].
Qed.

Lemma assign_insert_fresh (c x column : string) (value : option string)
  (row : gmap string string) :
  c <> column ->
  assign column value (<[c := x]> row) = <[c := x]> (assign column value row).
Proof.
  intros NE. unfold assign. destruct (String.eqb column "__proto__"); [reflexivity|].
  destruct value; [now rewrite insert_insert_ne | now rewrite delete_insert_ne].
Qed.

Lemma fillRow_other (c : string) (row : gmap string string)
  (header values : list string) :
  c ∉ header -> fillRow row header values !! c = row !! c.
Proof.
  revert row values. induction header as [|c' header IH]; intros row values N;
    [reflexivity|].
  apply not_elem_of_cons in N as [NE N].
  destruct values as [|x values]; cbn; rewrite IH by exact N;
    now apply assign_other.
Qed.

(** No cell is ever stored under the name [__proto__]. *)
Lemma fillRow_proto (row : gmap string string) (header values : list string) :
  fillRow row header values !! "__proto__" = row !! "__proto__".
Proof.
  revert row values. induction header as [|c header IH]; intros row values;
    [reflexivity|].
  assert (A : forall value, assign c value row !! "__proto__" = row !! "__proto__").
  { intros value. unfold assign.
    destruct (String.eqb_spec c "__proto__") as [->|NE]; [reflexivity|].
    destruct value; [now rewrite lookup_insert_ne | now rewrite lookup_delete_ne]. }
  destruct values as [|x values]; cbn; now rewrite IH, A.
Qed.

Lemma fillRow_insert_fresh (c x : string) (row : gmap string string)
  (header values : list string) :
  c ∉ header ->
  fillRow (<[c := x]> row) header values = <[c := x]> (fillRow row header values).
Proof.
  revert row values. induction header as [|c' header IH]; intros row values N;
    [reflexivity|].
  apply not_elem_of_cons in N as [NE N].
  destruct values as [|x' values]; cbn;
    rewrite assign_insert_fresh by exact NE; now apply IH.
Qed.

Lemma fillRow_no_cells (header : list string) : fillRow ∅ header [] = ∅.
Proof.
  induction header as [|c header IH]; [reflexivity|].
  cbn. unfold assign. destruct (String.eqb c "__proto__"); [exact IH|].
  now rewrite delete_empty.
Qed.

Lemma fillRow_list_to_map (header values : list string) :
  NoDup header ->
  fillRow ∅ header values = delete "__proto__" (list_to_map (zip header values)).
Proof.
  intros N. revert values. induction N as [|c header Fresh N IH]; intros values;
    [cbn; now rewrite delete_empty|].
  destruct values as [|x values].
  - cbn [zip zip_with list_to_map foldr]. rewrite delete_empty.
    apply fillRow_no_cells.
  - cbn [fillRow zip zip_with list_to_map foldr]. unfold assign. cbn [fst snd].
    destruct (String.eqb_spec c "__proto__") as [->|NE].
    + now rewrite IH, delete_insert_eq.
    + rewrite fillRow_insert_fresh by exact Fresh.
      now rewrite IH, delete_insert_ne by congruence.
Qed.

(** X8.  A cell is found under the name of its column: with distinct
    column names, the row object maps the name of column [i], when it is
    not [__proto__], to cell [i] of the line, and to nothing when the
    line has fewer cells; a name that is no column of the header maps to
    nothing, and so does [__proto__], under which no cell is stored. *)
Theorem X8_cells_by_column_name (header values : list string)
  (i : nat) (column : string) :
  (NoDup header -> header !! i = Some column -> column <> "__proto__" ->
   fillRow ∅ header values !! column = values !! i)
  /\ (column ∉ header \/ column = "__proto__" ->
      fillRow ∅ header values !! column = None).
Proof.
  split.
  - intros N H NP. rewrite fillRow_list_to_map by exact N.
    rewrite lookup_delete_ne by congruence.
    revert values i H. induction N as [|c header Fresh N IH];
      intros values i H; [discriminate H|].
    destruct values as [|x values];
      [cbn [zip zip_with list_to_map foldr];
       now rewrite lookup_empty, lookup_nil|].
    cbn [zip zip_with list_to_map foldr]. cbn [fst snd].
    destruct i as [|i]; cbn in H.
    + injection H as <-. now rewrite lookup_insert_eq.
    + rewrite lookup_insert_ne; [exact (IH values i H)|].
      intros <-. apply Fresh. eapply list_elem_of_lookup_2, H.
  - intros [N| ->].
    + now rewrite fillRow_other, lookup_empty.
    + now rewrite fillRow_proto, lookup_empty.
Qed.

Lemma X8_witness :
  fillRow ∅ (split headerLine ",") (split "AAA,BUY,3" ",") !! "Quantity"
  = split "AAA,BUY,3" "," !! 2%nat
  /\ fillRow ∅ (split headerLine ",") (split "AAA,BUY,3" ",") !! "Total Amount"
     = split "AAA,BUY,3" "," !! 4%nat
  /\ fillRow ∅ (split headerLine ",") (split "AAA,BUY,3" ",") !! "Currency" = None
  /\ fillRow ∅ ["Ticker"; "__proto__"] ["AAA"; "BUY"] !! "__proto__" = None.
Proof.
  pose proof (X8_cells_by_column_name (split headerLine ",")
                (split "AAA,BUY,3" ",")) as H.
  split; [|split; [|split]].
  - apply (proj1 (H 2%nat "Quantity")); [by_decision | reflexivity | discriminate].
  - apply (proj1 (H 4%nat "Total Amount")); [by_decision | reflexivity | discriminate].
  - apply (proj2 (H 0%nat "Currency")). left. by_decision.
  - apply (proj2 (X8_cells_by_column_name ["Ticker"; "__proto__"] ["AAA"; "BUY"]
                   1%nat "__proto__")).
    now right.
Defined.

(** X9.  Columns are matched by name, not by position: with distinct
    column names and lines that have a cell for every column, moving the
    columns of the header and the cells of the line in the same way
    gives the same row object, hence the same records. *)
Theorem X9_column_order_is_irrelevant (header values header' values' : list string) :
  NoDup header ->
  length header = length values ->
  length header' = length values' ->
  zip header values ≡ₚ zip header' values' ->
  fillRow ∅ header values = fillRow ∅ header' values'
  /\ rowRecords (fillRow ∅ header values) = rowRecords (fillRow ∅ header' values').
Proof.
  intros N L L' P.
  assert (N' : NoDup header').
  { rewrite <- (fst_zip header' values') by lia.
    rewrite <- P, fst_zip by lia. exact N. }
  assert (E : fillRow ∅ header values = fillRow ∅ header' values').
  { rewrite !fillRow_list_to_map by assumption. f_equal.
    apply list_to_map_proper; [|exact P]. now rewrite fst_zip by lia. }
  split; [exact E | now rewrite E].
Qed.

Lemma X9_witness :
  fillRow ∅ ["Ticker"; "Type"; "Quantity"] ["AAA"; "BUY"; "3"]
  = fillRow ∅ ["Quantity"; "Ticker"; "Type"] ["3"; "AAA"; "BUY"]
  /\ rowRecords (fillRow ∅ ["Ticker"; "Type"; "Quantity"] ["AAA"; "BUY"; "3"])
     = rowRecords (fillRow ∅ ["Quantity"; "Ticker"; "Type"] ["3"; "AAA"; "BUY"]).
Proof.
  apply X9_column_order_is_irrelevant; try reflexivity.
  - by_decision.
  - cbn. symmetry. apply Permutation_cons_append with (l := [_; _]).
Defined.

Lemma nonEmpty_not_empty (cell : option string) (s : string) :
  nonEmpty cell = Some s -> String.eqb s "" = false.
Proof. destruct cell as [[|c r]|]; cbn; intros [= <-]; reflexivity. Qed.

(** What one row can push: nothing, or one record, which carries the
    total amount of the row and a ticker that is not empty. *)
Lemma rowRecords_cases (row : gmap string string) :
  rowRecords row = Thrown TypeError
  \/ rowRecords row = Normal []
  \/ exists transaction,
       rowRecords row = Normal [transaction]
       /\ amountOf transaction = rowTotalAmount row
       /\ wellTickered transaction = true.
Proof.
  destruct (nonEmpty (row !! "Ticker")) as [ticker|] eqn:T.
  - destruct (includes (rowType row) "BUY" || includes (rowType row) "SELL") eqn:K.
    + destruct (row !! "Price per share") as [price|] eqn:P.
      * right. right. eexists.
        split; [exact (rowRecords_trade row ticker price T K P)|].
        split; [reflexivity|]. cbn. now rewrite (nonEmpty_not_empty _ _ T).
      * left. apply rowRecords_thrown. unfold isTradeRow. now rewrite T, K.
    + unfold rowRecords. rewrite T, K. remember (rowType row) as type.
      destruct (String.eqb_spec type "DIVIDEND") as [->|];
        [|destruct (String.eqb_spec type "ROBO MANAGEMENT FEE") as [->|];
          [|destruct (String.eqb_spec type "CASH TOP-UP") as [->|]]].
      all: cbn; try (right; left; reflexivity).
      all: right; right; eexists; split; [reflexivity|]; split; [reflexivity|].
      all: cbn; now rewrite ?(nonEmpty_not_empty _ _ T).
  - unfold rowRecords. rewrite T. remember (rowType row) as type.
    destruct (String.eqb_spec type "DIVIDEND") as [->|];
      [|destruct (String.eqb_spec type "ROBO MANAGEMENT FEE") as [->|];
        [|destruct (String.eqb_spec type "CASH TOP-UP") as [->|]]].
    all: cbn; try (right; left; reflexivity).
    all: right; right; eexists; split; [reflexivity|]; split; reflexivity.
Qed.

(** A property of the records of every line is a property of all the
    records of the statement. *)
Lemma parseLines_Forall (P : Transaction -> Prop) (header lines : list string)
  (transactions : list Transaction) :
  (forall line pushed, line ∈ lines -> parseLine header line = Normal pushed ->
                       Forall P pushed) ->
  parseLines header lines = Normal transactions -> Forall P transactions.
Proof.
  revert transactions. induction lines as [|line lines IH]; intros ts H E; cbn in E.
  - injection E as <-. constructor.
  - destruct (parseLine header line) as [pushed|] eqn:L; [|discriminate].
    destruct (parseLines header lines) as [more|]; [|discriminate].
    injection E as <-. apply Forall_app. split.
    + apply (H line); [left | exact L].
    + apply IH; [|reflexivity]. intros l p I. apply H. now right.
Qed.

(** X10.  The kinds of row exclude one another: a data line pushes at
    most one record, so a statement gives at most as many records as it
    has data lines. *)
Theorem X10_at_most_one_record_per_line (content : string)
  (transactions : list Transaction) :
  parseCSV content = Normal transactions ->
  length transactions <= length (dataLines content).
Proof.
  unfold parseCSV, dataLines. generalize (tail (split (trim content) lineFeed)).
  generalize (split (default "" (head (split (trim content) lineFeed))) ",").
  intros header lines. revert transactions.
  induction lines as [|line lines IH]; intros ts E; cbn in E.
  - injection E as <-. reflexivity.
  - destruct (parseLine header line) as [pushed|] eqn:L; [|discriminate].
    destruct (parseLines header lines) as [more|]; [|discriminate].
    injection E as <-. rewrite length_app. cbn.
    specialize (IH more eq_refl). unfold parseLine in L.
    destruct (rowRecords_cases (fillRow ∅ header (split line ","))) as [R|[R|(tx & R & _)]];
      rewrite R in L; try discriminate; injection L as <-; cbn; lia.
Qed.

Lemma X10_witness :
  length [Trade "AAA" BUY 10 5 nan; Trade "EUR" BUY nan 1 nan]
  <= length (dataLines unparsableCsv).
Proof.
  apply (X10_at_most_one_record_per_line unparsableCsv). vm_compute. reflexivity.
Defined.

Lemma parseLines_thrown (header lines : list string) (e : Exception) :
  parseLines header lines = Thrown e
  <-> e = TypeError
      /\ exists line, line ∈ lines
                      /\ isTradeRow (rowOf header line) = true
                      /\ rowOf header line !! "Price per share" = None.
Proof.
  revert e. induction lines as [|line lines IH]; intros e; cbn.
  - split; [discriminate|]. intros (_ & l & I & _). inversion I.
  - unfold parseLine. fold (rowOf header line).
    destruct (rowRecords (rowOf header line)) as [pushed|e'] eqn:R.
    + destruct (parseLines header lines) as [more|e'] eqn:M.
      * split; [discriminate|]. intros (-> & l & I & T & P).
        apply elem_of_cons in I as [->|I].
        -- assert (X : rowRecords (rowOf header line) = Thrown TypeError)
             by (apply rowRecords_thrown; auto).
           congruence.
        -- assert (X : @Normal (list Transaction) more = Thrown TypeError)
             by (apply IH; eauto).
           discriminate X.
      * destruct (proj1 (IH e') eq_refl) as (-> & l & I & T & P). split.
        -- intros [= <-]. split; [reflexivity|].
           exists l. split; [now right | auto].
        -- intros (-> & _). reflexivity.
    + apply rowRecords_thrown in R as (-> & T & P). split.
      * intros [= <-]. split; [reflexivity|]. exists line. split; [left | auto].
      * intros (-> & _). reflexivity.
Qed.

(** X11.  The only exception the extractor raises is a [TypeError], and
    it raises it exactly when some data line has a ticker, a type that
    contains BUY or SELL, and no cell in the price-per-share column (the
    column is missing or the line is cut short).  Every other statement
    is parsed to a list of records. *)
Theorem X11_when_parseCSV_throws (content : string) (e : Exception) :
  parseCSV content = Thrown e
  <-> e = TypeError
      /\ exists line,
           line ∈ dataLines content
           /\ isTradeRow (rowOf (headerOf content) line) = true
           /\ rowOf (headerOf content) line !! "Price per share" = None.
Proof. apply parseLines_thrown. Qed.

(** X12.  A row pushes nothing exactly when it is not a trade row (no
    ticker, or a type without BUY and SELL) and its type is none of
    DIVIDEND, ROBO MANAGEMENT FEE and CASH TOP-UP: such rows are dropped
    without error. *)
Theorem X12_dropped_rows (row : gmap string string) :
  rowRecords row = Normal []
  <-> isTradeRow row = false
      /\ rowType row <> "DIVIDEND"
      /\ rowType row <> "ROBO MANAGEMENT FEE"
      /\ rowType row <> "CASH TOP-UP".
Proof.
  unfold rowRecords, isTradeRow.
  destruct (nonEmpty (row !! "Ticker")) as [ticker|];
    [destruct (includes (rowType row) "BUY" || includes (rowType row) "SELL") eqn:K;
     [destruct (row !! "Price per share") as [price|] |] |].
  1, 2: split; [discriminate | intros [? _]; discriminate].
  all: remember (rowType row) as type.
  all: destruct (String.eqb_spec type "DIVIDEND") as [->|ND];
    [split; [discriminate | intros (_ & X & _); congruence]|].
  all: destruct (String.eqb_spec type "ROBO MANAGEMENT FEE") as [->|NF];
    [split; [discriminate | intros (_ & _ & X & _); congruence]|].
  all: destruct (String.eqb_spec type "CASH TOP-UP") as [->|NC];
    [split; [discriminate | intros (_ & _ & _ & X); congruence]|].
  all: split; auto.
Qed.

Lemma parseLines_nothing (header lines : list string) :
  (forall line, line ∈ lines -> parseLine header line = Normal []) ->
  parseLines header lines = Normal [].
Proof.
  induction lines as [|line lines IH]; intros H; [reflexivity|].
  cbn. rewrite (H line) by left. rewrite IH; [reflexivity|].
  intros l I. apply H. now right.
Qed.

Lemma rowRecords_without_type (row : gmap string string) :
  nonEmpty (row !! "Type") = None -> rowRecords row = Normal [].
Proof.
  intros T. unfold rowRecords.
  assert (rowType row = "") as ->
    by (unfold rowType; destruct (row !! "Type") as [[|c r]|]; try reflexivity;
        discriminate T).
  destruct (nonEmpty (row !! "Ticker")); reflexivity.
Qed.

(** X13.  A statement whose header has no column named Type gives no
    record at all, and no error: every row is dropped. *)
Theorem X13_no_type_column (content : string) :
  "Type" ∉ headerOf content -> parseCSV content = Normal [].
Proof.
  intros N. apply parseLines_nothing. intros line _.
  apply rowRecords_without_type. now rewrite fillRow_other, lookup_empty.
Qed.

Lemma X13_witness :
  parseCSV (lines ["Ticker,Kind,Quantity"; "AAA,BUY,3"; ",CASH TOP-UP,"]) = Normal [].
Proof.
  apply X13_no_type_column. by_decision.
Defined.

(** X14.  When the header has no column named Total Amount, every record
    of the statement carries the total amount 0.  This is the case of a
    statement with CR LF line ends whose last column is Total Amount:
    the name read from the header ends with a carriage return. *)
Theorem X14_no_total_amount_column (content : string)
  (transactions : list Transaction) :
  "Total Amount" ∉ headerOf content ->
  parseCSV content = Normal transactions ->
  Forall (fun transaction => amountOf transaction = 0) transactions.
Proof.
  intros N. apply parseLines_Forall. intros line pushed _ L.
  unfold parseLine in L.
  assert (Z : rowTotalAmount (fillRow ∅ (headerOf content) (split line ",")) = 0).
  { unfold rowTotalAmount. rewrite fillRow_other, lookup_empty by exact N.
    vm_compute. reflexivity. }
  destruct (rowRecords_cases (fillRow ∅ (headerOf content) (split line ",")))
    as [R|[R|(tx & R & A & _)]]; unfold headerOf in *; rewrite R in L;
    try discriminate; injection L as <-; repeat constructor.
  now rewrite A.
Qed.

Lemma X14_witness :
  Forall (fun transaction => amountOf transaction = 0)
         [Trade "AAA" BUY 10 5 0; Trade "EUR" BUY 0 1 0].
Proof.
  apply (X14_no_total_amount_column
           (lines [headerLine +:+ String "013" "";
                   "AAA,BUY,10,€5,€50" +:+ String "013" "";
                   ",CASH TOP-UP,,,€100" +:+ String "013" ""])).
  - by_decision.
  - vm_compute. reflexivity.
Defined.

Lemma split_without_separator (s : string) (c : ascii) :
  lacksChar c s = true -> split s c = [s].
Proof.
  induction s as [|c' s IH]; [reflexivity|]. cbn.
  intros [N L]%andb_prop. apply negb_true_iff in N. rewrite N, IH by exact L.
  reflexivity.
Qed.

(** X15.  A statement that, once trimmed, is a single line (an empty
    file, or a header without data lines) gives the empty list of
    records. *)
Theorem X15_header_only (content : string) :
  lacksChar lineFeed (trim content) = true -> parseCSV content = Normal [].
Proof.
  intros L. unfold parseCSV.
  rewrite (split_without_separator (trim content) lineFeed L). reflexivity.
Qed.

Lemma X15_witness :
  parseCSV (String lineFeed (headerLine +:+ String lineFeed "   ")) = Normal [].
Proof. apply X15_header_only. vm_compute. reflexivity. Defined.

(** X16.  No record leaves the extractor with an empty ticker: every
    trade carries a ticker that is not the empty string, and a dividend
    carries such a ticker or none. *)
Theorem X16_tickers_are_not_empty (content : string)
  (transactions : list Transaction) :
  parseCSV content = Normal transactions ->
  Forall (fun transaction => wellTickered transaction = true) transactions.
Proof.
  apply parseLines_Forall. intros line pushed _ L. unfold parseLine in L.
  destruct (rowRecords_cases
              (fillRow ∅ (split (default "" (head (split (trim content) lineFeed))) ",")
                       (split line ",")))
    as [R|[R|(tx & R & _ & W)]]; rewrite R in L;
    try discriminate; injection L as <-; repeat constructor. exact W.
Qed.

Lemma X16_witness :
  Forall (fun transaction => wellTickered transaction = true)
         [Trade "AAA" BUY 10 5 nan; Trade "EUR" BUY nan 1 nan].
Proof.
  apply (X16_tickers_are_not_empty unparsableCsv). vm_compute. reflexivity.
Defined.

(** X17.  Parsing goes line by line: the records of a sequence of data
    lines are the records of its first part followed by those of the
    rest, and an exception raised in either part is the outcome of the
    whole, the first part taking precedence. *)
Theorem X17_parsing_is_line_by_line (header lines1 lines2 : list string) :
  parseLines header (lines1 ++ lines2)
  = match parseLines header lines1 with
    | Thrown e => Thrown e
    | Normal pushed =>
        match parseLines header lines2 with
        | Thrown e => Thrown e
        | Normal more => Normal (pushed ++ more)
        end
    end.
Proof.
  induction lines1 as [|line lines1 IH]; cbn.
  - now destruct (parseLines header lines2).
  - destruct (parseLine header line) as [pushed|e]; [|reflexivity].
    rewrite IH. destruct (parseLines header lines1) as [p1|e1]; [|reflexivity].
    destruct (parseLines header lines2) as [p2|e2]; [|reflexivity].
    now rewrite app_assoc.
Qed.

(* ================================================================== *)
(** * Further properties of [loadTickerToIsin] and [main]              *)
(* ================================================================== *)

Lemma startsWith_app (s p : string) :
  startsWith s p = true <-> exists rest, s = p +:+ rest.
Proof.
  unfold startsWith. revert s. induction p as [|a p IH]; intros s.
  - destruct s; cbn; split; eauto.
  - destruct s as [|b s]; cbn.
    + split; [discriminate | intros [rest E]; discriminate E].
    + destruct (ascii_dec a b) as [->|N].
      * rewrite IH. split; intros [rest E]; exists rest;
          [now rewrite E | now injection E].
      * split; [discriminate | intros [rest E]; injection E as -> _; now destruct N].
Qed.

Lemma replace_prefix (p rest : string) : replace (p +:+ rest) p "" = rest.
Proof.
  assert (D : drop_chars (String.length p) (p +:+ rest) = rest)
    by (induction p as [|a p IH]; [now destruct rest | exact IH]).
  assert (P : String.prefix p (p +:+ rest) = true)
    by (apply (startsWith_app (p +:+ rest) p); eauto).
  destruct p as [|a p]; [now destruct rest|].
  change (String a p +:+ rest) with (String a (p +:+ rest)) in *.
  cbn [replace]. rewrite P. exact D.
Qed.

Lemma loadTickerToIsin_fold (entries : list (string * string)) :
  loadTickerToIsin entries = fold_left addEntry entries ∅.
Proof. reflexivity. Qed.

Lemma addEntry_lookup (mapping : gmap string string) (key value ticker : string) :
  ticker <> "__proto__" ->
  addEntry mapping (key, value) !! ticker
  = if decide (key = tickerVariable ticker) then Some value else mapping !! ticker.
Proof.
  intros NP. unfold addEntry, tickerVariable.
  destruct (startsWith key "TICKER_") eqn:S.
  - apply startsWith_app in S as [rest ->]. rewrite replace_prefix.
    destruct (String.eqb_spec rest "__proto__") as [->|NR].
    + rewrite decide_False; [reflexivity|]. intros [= E]. auto.
    + destruct (decide (rest = ticker)) as [->|N].
      * now rewrite lookup_insert_eq, decide_True.
      * rewrite lookup_insert_ne by exact N.
        rewrite decide_False; [reflexivity|]. intros [= E]. auto.
  - rewrite decide_False; [reflexivity|]. intros ->.
    assert (X : startsWith ("TICKER_" +:+ ticker) "TICKER_" = true)
      by (apply startsWith_app; eauto).
    congruence.
Qed.

(** The mapping never gets an entry for [__proto__]. *)
Lemma fold_addEntry_proto (entries : list (string * string))
  (mapping : gmap string string) :
  fold_left addEntry entries mapping !! "__proto__" = mapping !! "__proto__".
Proof.
  revert mapping. induction entries as [|[key value] entries IH];
    intros mapping; [reflexivity|].
  cbn [fold_left]. rewrite IH. unfold addEntry.
  destruct (startsWith key "TICKER_"); [|reflexivity].
  destruct (String.eqb_spec (replace key "TICKER_" "") "__proto__") as [E|NE];
    [reflexivity | now rewrite lookup_insert_ne].
Qed.

Lemma fold_addEntry_lookup (entries : list (string * string))
  (mapping : gmap string string) (ticker isin : string) :
  ticker <> "__proto__" ->
  NoDup entries.*1 ->
  fold_left addEntry entries mapping !! ticker = Some isin
  <-> (tickerVariable ticker, isin) ∈ entries
      \/ ((tickerVariable ticker ∉ entries.*1) /\ mapping !! ticker = Some isin).
Proof.
  intros NP. revert mapping. induction entries as [|[key value] entries IH];
    intros mapping N; cbn [fold_left].
  - split; [intros L; right; split; [apply not_elem_of_nil | exact L]|].
    intros [I|[_ L]]; [inversion I | exact L].
  - rewrite fmap_cons in N. apply NoDup_cons in N as [Fresh N].
    rewrite (IH _ N), (addEntry_lookup _ _ _ _ NP), fmap_cons, elem_of_cons,
      not_elem_of_cons.
    cbn [fst]. destruct (decide (key = tickerVariable ticker)) as [->|NE].
    + split.
      * intros [I|[_ [= ->]]]; [|left; now left].
        exfalso. apply Fresh. apply list_elem_of_fmap. now exists (tickerVariable ticker, isin).
      * intros [[[= ->]|I]|[[X _] _]]; [right; auto | left; exact I | congruence].
    + split.
      * intros [I|[O L]]; [left; now right | right; auto].
      * intros [[[= E _]|I]|[[_ O] L]]; [congruence | left; exact I | right; auto].
Qed.

(** The variables that configure nothing: those whose name does not
    start with TICKER_, and the variable TICKER___proto__. *)
Lemma addEntry_same (mapping : gmap string string) (entry : string * string) :
  startsWith entry.1 "TICKER_" = false \/ entry.1 = tickerVariable "__proto__" ->
  addEntry mapping entry = mapping.
Proof.
  destruct entry as [key value]. cbn [fst]. unfold addEntry. intros [S| ->].
  - now rewrite S.
  - reflexivity.
Qed.

Lemma fold_addEntry_empty (entries : list (string * string))
  (mapping : gmap string string) :
  fold_left addEntry entries mapping = ∅
  <-> mapping = ∅
      /\ Forall (fun entry => startsWith entry.1 "TICKER_" = false
                              \/ entry.1 = tickerVariable "__proto__") entries.
Proof.
  revert mapping. induction entries as [|[key value] entries IH];
    intros mapping; cbn [fold_left].
  - split; [intros ->; split; [reflexivity | constructor] | now intros [-> _]].
  - rewrite IH, Forall_cons. cbn [fst]. split.
    + intros [E F]. unfold addEntry in E.
      destruct (startsWith key "TICKER_") eqn:S; [|auto].
      apply startsWith_app in S as [rest ->]. rewrite replace_prefix in E.
      destruct (String.eqb_spec rest "__proto__") as [ER|NR];
        [rewrite ER; auto|].
      now apply insert_non_empty in E.
    + intros (-> & K & F). split; [|exact F].
      now apply (addEntry_same ∅ (key, value)).
Qed.

Lemma find_first {A} (f : A -> bool) (before after : list A) (x : A) :
  Forall (fun y => f y = false) before -> f x = true ->
  find f (before ++ x :: after) = Some x.
Proof.
  intros B X. induction B as [|y before Y B IH]; cbn.
  - now rewrite X.
  - now rewrite Y.
Qed.

(** What [report] prints is the line of every open position. *)
Lemma report_inv (tickerToIsin : gmap string string) (prototype : gset string)
  (a : Aggregate) (printed : list (string * float * float))
  (summary : float * float * float * float * float) :
  report tickerToIsin prototype a = Report printed summary ->
  missingTickers tickerToIsin (positions a) = []
  /\ printed = reportLines tickerToIsin (positions a)
  /\ summary = (totalInjected a, totalSold a, totalInjected a - totalSold a,
                totalDividends a, totalFees a).
Proof.
  unfold report. destruct (missingTickers tickerToIsin (positions a));
    [|discriminate].
  destruct (printable prototype (positions a)); [|discriminate].
  intros [= <- <-]. auto.
Qed.

Lemma main_report_inv (w : World) (printed : list (string * float * float))
  (summary : float * float * float * float * float) :
  main w = Report printed summary ->
  exists transactions,
    report (loadTickerToIsin (env w)) (prototypeAfter transactions)
           (calculateAveragePrices transactions)
    = Report printed summary.
Proof.
  unfold main. destruct (decide _); [discriminate|].
  destruct (documents w) as [files|]; [|discriminate].
  destruct (find _ files) as [[name [content|]]|]; try discriminate.
  destruct (parseCSV content) as [transactions|]; [|discriminate]. eauto.
Qed.

Lemma identified (tickerToIsin : gmap string string)
  (pos : gmap string Position) (ticker : string) :
  missingTickers tickerToIsin pos = [] -> is_Some (pos !! ticker) ->
  exists isin, tickerToIsin !! ticker = Some isin /\ isin <> "".
Proof.
  intros M P.
  assert (L : lacksIsin tickerToIsin ticker = false).
  { destruct (lacksIsin tickerToIsin ticker) eqn:L; [|reflexivity].
    assert (I : ticker ∈ missingTickers tickerToIsin pos)
      by (apply elem_of_missingTickers; auto).
    rewrite M in I. inversion I. }
  unfold lacksIsin in L.
  destruct (tickerToIsin !! ticker) as [[|c isin]|]; try discriminate L.
  eexists. split; [reflexivity | discriminate].
Qed.

(** X18.  The identifier of a ticker is the value of the variable
    TICKER_<ticker>: as the names of the environment are distinct, the
    mapping holds [isin] for [ticker] exactly when the environment has
    the entry TICKER_<ticker> = [isin] and the ticker is not
    [__proto__], under which name the mapping never gets an entry; the
    other variables are ignored. *)
Theorem X18_identifier_of_a_ticker (entries : list (string * string))
  (ticker isin : string) :
  NoDup entries.*1 ->
  loadTickerToIsin entries !! ticker = Some isin
  <-> ticker <> "__proto__" /\ (tickerVariable ticker, isin) ∈ entries.
Proof.
  intros N. rewrite loadTickerToIsin_fold.
  destruct (decide (ticker = "__proto__")) as [->|NP].
  - rewrite fold_addEntry_proto, lookup_empty.
    split; [discriminate | now intros [? _]].
  - rewrite (fold_addEntry_lookup _ _ _ _ NP N), lookup_empty.
    split; [intros [I|[_ [=]]]; auto | intros [_ I]; now left].
Qed.

Lemma X18_witness :
  loadTickerToIsin reportEnv !! "BBB" = Some "IE00BCRY6003"
  <-> "BBB" <> "__proto__" /\ (tickerVariable "BBB", "IE00BCRY6003") ∈ reportEnv.
Proof. apply X18_identifier_of_a_ticker. by_decision. Defined.

(** X19.  The run ends with the message on the missing ticker mapping
    exactly when no variable of the environment configures a ticker,
    that is when every variable has a name that does not start with
    TICKER_ or is TICKER___proto__, whatever the documents folder
    holds: the configuration is checked before the folder and the
    statement. *)
Theorem X19_no_ticker_mapping (w : World) :
  main w = NoTickerMapping
  <-> Forall (fun entry => startsWith entry.1 "TICKER_" = false
                           \/ entry.1 = tickerVariable "__proto__") (env w).
Proof.
  assert (E : size (loadTickerToIsin (env w)) = 0%nat
              <-> Forall (fun entry => startsWith entry.1 "TICKER_" = false
                                       \/ entry.1 = tickerVariable "__proto__")
                         (env w)).
  { rewrite map_size_empty_iff, loadTickerToIsin_fold, fold_addEntry_empty. tauto. }
  rewrite <- E. unfold main. destruct (decide _) as [Z|NZ]; [tauto|].
  split; [|tauto]. intros M. exfalso.
  destruct (documents w) as [files|]; [|discriminate].
  destruct (find _ files) as [[name [content|]]|]; try discriminate.
  destruct (parseCSV content) as [transactions|]; [|discriminate].
  unfold report in M. destruct (missingTickers _ _); [|discriminate].
  destruct (printable _ _); discriminate.
Qed.

(** X20.  Only the first file of the folder whose name ends with .csv is
    read: the files listed before it, whose names do not end with .csv,
    and all the files listed after it have no effect on the run. *)
Theorem X20_first_csv_file_only (entries : list (string * string))
  (before after : list (string * option string)) (name : string)
  (content : option string) :
  Forall (fun file => isCsv file = false) before ->
  isCsv (name, content) = true ->
  main (mkWorld entries (Some (before ++ (name, content) :: after)))
  = main (mkWorld entries (Some [(name, content)])).
Proof.
  intros B C. unfold main. cbn [documents env].
  fold isCsv. rewrite (find_first isCsv before after _ B C).
  pose proof (find_first isCsv [] [] _ (Forall_nil_2 _) C) as F.
  cbn [app] in F. now rewrite F.
Qed.

Lemma X20_witness :
  main reportWorld
  = main (mkWorld reportEnv (Some [("transactions.csv", Some reportCsv)])).
Proof.
  apply (X20_first_csv_file_only reportEnv [("statement.pdf", Some "%PDF-1.7")]
           [("older.csv", None)]).
  - by_decision.
  - reflexivity.
Defined.

(** X21.  A report has exactly one line for every open position: the
    identifier configured for the ticker, the remaining quantity and the
    average price; and its summary holds the four totals and the net
    contributions, the injected total less the sold total. *)
Theorem X21_lines_of_the_report (tickerToIsin : gmap string string)
  (prototype : gset string) (a : Aggregate)
  (printed : list (string * float * float))
  (summary : float * float * float * float * float) :
  report tickerToIsin prototype a = Report printed summary ->
  length printed = size (positions a)
  /\ (forall line, line ∈ printed
        <-> exists ticker p isin,
              positions a !! ticker = Some p
              /\ tickerToIsin !! ticker = Some isin
              /\ line = (isin, totalQuantity p, averagePrice p))
  /\ summary = (totalInjected a, totalSold a, totalInjected a - totalSold a,
                totalDividends a, totalFees a).
Proof.
  intros (M & -> & ->)%report_inv. split; [|split; [|reflexivity]].
  - unfold reportLines. now rewrite length_fmap, length_map_to_list.
  - intros line. unfold reportLines. rewrite list_elem_of_fmap. split.
    + intros ([ticker p] & -> & I%elem_of_map_to_list).
      destruct (identified tickerToIsin (positions a) ticker M) as (isin & L & _);
        [eauto|].
      exists ticker, p, isin. now rewrite L.
    + intros (ticker & p & isin & P & L & ->). exists (ticker, p).
      split; [now rewrite L | now apply elem_of_map_to_list].
Qed.

Lemma X21_witness :
  length [("US0000000001", 6, 5); ("IE00BCRY6003", 2, 4)]
  = size (positions (calculateAveragePrices
                       [Trade "AAA" BUY 10 5 50; Trade "BBB" BUY 2 4 8;
                        Trade "AAA" SELL 4 6 24; cashTopUp 100])).
Proof.
  refine (proj1 (X21_lines_of_the_report (loadTickerToIsin reportEnv) ∅ _ _
                   (100, 24, 76, 0, 0) _)).
  vm_compute. reflexivity.
Defined.

(** X22.  A run that ends with a report never prints an empty or
    undefined identifier nor a position without shares: every line
    carries a non-empty identifier that the environment configures for
    some ticker, and a quantity above zero. *)
Theorem X22_printed_lines_are_sound (w : World)
  (printed : list (string * float * float))
  (summary : float * float * float * float * float) :
  main w = Report printed summary ->
  Forall (fun line =>
            line.1.1 <> ""
            /\ (exists ticker, loadTickerToIsin (env w) !! ticker = Some line.1.1)
            /\ (0 <? line.1.2) = true)
         printed.
Proof.
  intros [transactions (M & -> & _)%report_inv]%main_report_inv.
  unfold reportLines. apply Forall_fmap, Forall_forall.
  intros [ticker p] I%elem_of_map_to_list. cbn.
  destruct (identified _ _ ticker M) as (isin & L & NE); [eauto|].
  rewrite L. cbn. split; [exact NE|]. split; [eauto|].
  apply position_inv in I as [Q ->]. exact Q.
Qed.

Lemma X22_witness :
  Forall (fun line : string * float * float =>
            line.1.1 <> ""
            /\ (exists ticker, loadTickerToIsin (env reportWorld) !! ticker = Some line.1.1)
            /\ (0 <? line.1.2) = true)
         [("US0000000001", 6, 5); ("IE00BCRY6003", 2, 4)].
Proof.
  apply (X22_printed_lines_are_sound reportWorld _ (100, 24, 76, 0, 0)).
  vm_compute. reflexivity.
Defined.

(** X25.  A statement with a record that trades the ticker [__proto__]
    never ends with a report, as long as no ticker named like the
    property it adds to [Object.prototype] has a position: the run ends
    with the missing identifiers, or, when the identifiers are complete,
    with the processing error of the [TypeError] thrown while the
    report is printed; its status is 1. *)
Theorem X25_proto_trade_fails_the_run (w : World)
  (files : list (string * option string)) (file content : string)
  (transactions : list Transaction) (type : TradeType)
  (quantity price amount : float) :
  size (loadTickerToIsin (env w)) <> 0%nat ->
  documents w = Some files ->
  find (fun file => endsWith file.1 ".csv") files = Some (file, Some content) ->
  parseCSV content = Normal transactions ->
  Trade "__proto__" type quantity price amount ∈ transactions ->
  Forall (fun name => positions (calculateAveragePrices transactions) !! name = None)
         (writtenBy type) ->
  exitStatus (main w) = 1%nat
  /\ (main w = ProcessingError TypeError
      <-> missingTickers (loadTickerToIsin (env w))
            (positions (calculateAveragePrices transactions)) = []).
Proof.
  intros M D F P I N.
  rewrite (main_reports w files file content transactions M D F P).
  assert (E : exists name, name ∈ prototypeAfter transactions
                           /\ positions (calculateAveragePrices transactions)
                                !! name = None).
  { destruct type; cbn in N.
    - exists "boughtQuantity". split; [|now inversion N].
      rewrite prototypeAfter_writes, elem_of_union_list.
      exists (prototypeWrites (Trade "__proto__" BUY quantity price amount)).
      split; [apply list_elem_of_fmap; eauto | cbn; set_unfold; tauto].
    - exists "soldQuantity". split; [|now inversion N].
      rewrite prototypeAfter_writes, elem_of_union_list.
      exists (prototypeWrites (Trade "__proto__" SELL quantity price amount)).
      split; [apply list_elem_of_fmap; eauto | cbn; set_unfold; tauto]. }
  pose proof (report_error (loadTickerToIsin (env w)) (prototypeAfter transactions)
                (calculateAveragePrices transactions) TypeError) as R.
  destruct (missingTickers _ _) as [|t ts] eqn:Missing.
  - assert (X : report (loadTickerToIsin (env w)) (prototypeAfter transactions)
                       (calculateAveragePrices transactions)
                = ProcessingError TypeError) by (apply R; auto).
    rewrite X. split; [reflexivity | tauto].
  - unfold report. rewrite Missing. split; [reflexivity|].
    split; discriminate.
Qed.

Lemma X25_witness :
  exitStatus (main protoWorld) = 1%nat
  /\ (main protoWorld = ProcessingError TypeError
      <-> missingTickers (loadTickerToIsin (env protoWorld))
            (positions (calculateAveragePrices
                          [Trade "AAA" BUY 10 5 50; Trade "__proto__" SELL 4 6 24]))
          = []).
Proof.
  apply (X25_proto_trade_fails_the_run protoWorld
           [("transactions.csv", Some protoCsv)] "transactions.csv" protoCsv
           [Trade "AAA" BUY 10 5 50; Trade "__proto__" SELL 4 6 24] SELL 4 6 24).
  - vm_compute. discriminate.
  - reflexivity.
  - vm_compute. reflexivity.
  - vm_compute. reflexivity.
  - right. left.
  - repeat constructor.
Defined.
